(** * priv: a minimal image-hosting HTTP service (main.go)

    Shallow embedding of [RandomString], [FileUploadHandler],
    [serveImageHTML] and [countFiles], together with the parts of the Go
    standard library they call (strings, path/filepath, fmt verbs, os,
    crypto/rand, net/http replies), and the properties of the handlers. *)

From Stdlib Require Import ZArith Lia Strings.Ascii Strings.String Strings.Byte List.
From Stdlib Require Import Numbers.DecimalString.
From stdpp Require Import base option list gmap strings.

Set Warnings "-register-all".

(** ** Go strings

    A Go string is a sequence of bytes: [string], whose characters are the
    eight-bit [ascii]. File contents and random bytes are [list byte]. *)

Definition str (c : ascii) : string := String c EmptyString.

(** The double quote, line feed and tab of the raw string literals. *)
Definition dq : string := str (ascii_of_nat 34).
Definition nl : string := str (ascii_of_nat 10).
Definition tab : string := str (ascii_of_nat 9).

(** [strings.HasPrefix] *)
Fixpoint HasPrefix (s p : string) {struct p} : bool :=
  match p, s with
  | EmptyString, _ => true
  | String a p', String b s' => if Ascii.eqb a b then HasPrefix s' p' else false
  | String _ _, EmptyString => false
  end.

(** [strings.TrimPrefix]: [s] without the leading [p], or [s] itself. *)
Fixpoint drop_prefix (s p : string) {struct p} : option string :=
  match p, s with
  | EmptyString, _ => Some s
  | String a p', String b s' => if Ascii.eqb a b then drop_prefix s' p' else None
  | String _ _, EmptyString => None
  end.

Definition TrimPrefix (s p : string) : string :=
  match drop_prefix s p with Some r => r | None => s end.

(** [strings.Contains s substr]: [substr] occurs somewhere within [s]. *)
Fixpoint Contains (s substr : string) : bool :=
  HasPrefix s substr
  || match s with
     | EmptyString => false
     | String _ s' => Contains s' substr
     end.

(** [strings.ToLower]. The library first scans for a byte >= 0x80
    (utf8.RuneSelf); an all-ASCII string is lowered byte by byte, anything
    else goes through [strings.Map(unicode.ToLower, s)], which the model
    takes as the parameter [unicode_lower] of the handlers. *)
Definition is_upper (c : ascii) : bool :=
  (65 <=? nat_of_ascii c)%nat && (nat_of_ascii c <=? 90)%nat.

Definition lower_byte (c : ascii) : ascii :=
  if is_upper c then ascii_of_nat (nat_of_ascii c + 32) else c.

Fixpoint map_bytes (f : ascii -> ascii) (s : string) : string :=
  match s with
  | EmptyString => EmptyString
  | String c s' => String (f c) (map_bytes f s')
  end.

Fixpoint isASCII (s : string) : bool :=
  match s with
  | EmptyString => true
  | String c s' => (nat_of_ascii c <? 128)%nat && isASCII s'
  end.

Definition ToLower (unicode_lower : string -> string) (s : string) : string :=
  if isASCII s then map_bytes lower_byte s else unicode_lower s.

(** ** path/filepath (Unix: the separator is the slash) *)

Definition slash : ascii := ascii_of_nat 47.
Definition dot : ascii := ascii_of_nat 46.

(** [filepath.Ext]: scan from the end, stop at a separator; the suffix from
    the last dot of the last element, or the empty string. The recursion
    returns the extension found strictly inside the tail together with a flag
    telling whether the tail held a separator. *)
Fixpoint ext_scan (s : string) : option string * bool :=
  match s with
  | EmptyString => (None, false)
  | String c s' =>
      let '(r, sep) := ext_scan s' in
      match r with
      | Some e => (Some e, sep)
      | None =>
          if sep then (None, true)
          else if Ascii.eqb c slash then (None, true)
          else if Ascii.eqb c dot then (Some s, false)
          else (None, false)
      end
  end.

Definition Ext (path : string) : string :=
  match fst (ext_scan path) with Some e => e | None => EmptyString end.

(** ** RandomString *)

Definition charset : string :=
  "abcdefghijklmnopqrstuvwxyzABCDEFGHIJKLMNOPQRSTUVWXYZ0123456789".

(** [charset[i]] for an index the caller keeps in range. *)
Definition charset_at (i : nat) : ascii :=
  match String.get i charset with Some c => c | None => zero end.

(** crypto/rand [Read] over an entropy source holding finitely many bytes:
    it fills the whole buffer or fails; the rest of the source is returned. *)
Definition rand_Read (entropy : list byte) (n : nat)
  : option (list byte * list byte) :=
  if decide (n <= length entropy)%nat
  then Some (take n entropy, drop n entropy)
  else None.

Fixpoint string_of_bytes (l : list ascii) : string :=
  match l with
  | [] => EmptyString
  | c :: l' => String c (string_of_bytes l')
  end.

(** [RandomString length]: [None] is the error return. A negative [length]
    makes [make] panic in Go; lengths are [nat] here. *)
Definition RandomString (entropy : list byte) (length : nat)
  : option (string * list byte) :=
  match rand_Read entropy length with
  | None => None
  | Some (bytes, rest) =>
      Some (string_of_bytes
              (map (fun b => charset_at (Byte.to_nat b mod String.length charset)) bytes),
            rest)
  end.

(** [strings.Join elems sep] *)
Fixpoint strings_Join (elems : list string) (sep : string) : string :=
  match elems with
  | [] => EmptyString
  | [e] => e
  | e :: rest => e +:+ sep +:+ strings_Join rest sep
  end.

(** The elements of a path between its separators: ["a//b"] gives
    [["a"; ""; "b"]]. *)
Fixpoint split_slash (s : string) : list string :=
  match s with
  | EmptyString => [EmptyString]
  | String c s' =>
      if Ascii.eqb c slash then EmptyString :: split_slash s'
      else match split_slash s' with
           | h :: t => String c h :: t
           | [] => [str c]
           end
  end.

(** [filepath.Clean], element by element. [stack] holds the elements kept so
    far, last one first: empty and dot elements vanish, a dot-dot removes the
    element before it unless that is a dot-dot too, and is dropped at the top
    of a rooted path. *)
Definition clean_step (rooted : bool) (stack : list string) (c : string)
  : list string :=
  if decide (c = EmptyString) then stack
  else if decide (c = ".") then stack
  else if decide (c = "..") then
    match stack with
    | top :: rest => if decide (top = "..") then c :: stack else rest
    | [] => if rooted then [] else [c]
    end
  else c :: stack.

Definition Clean (path : string) : string :=
  let rooted := HasPrefix path "/" in
  let body :=
    strings_Join (rev (fold_left (clean_step rooted) (split_slash path) [])) "/" in
  if rooted then "/" +:+ body
  else if decide (body = EmptyString) then "." else body.

(** [filepath.Join]: empty elements before the first non-empty one are
    skipped, the rest is joined with slashes and cleaned. *)
Fixpoint Join (elem : list string) : string :=
  match elem with
  | [] => EmptyString
  | e :: rest =>
      if decide (e = EmptyString) then Join rest
      else Clean (strings_Join elem "/")
  end.

(** ** fmt verbs *)

(** [%d] of an int. *)
Definition fmt_d (n : Z) : string := NilEmpty.string_of_int (Z.to_int n).

(** [float64(n)] for an int64 [n >= 0], as the integer the float holds: exact
    below 2^53, beyond that rounded to 53 significant bits, ties to even. *)
Definition float64_of_int (n : Z) : Z :=
  if (n <? 2 ^ 53)%Z then n
  else
    let e := (Z.log2 n - 52)%Z in
    let q := (n / 2 ^ e)%Z in
    let r := (n mod 2 ^ e)%Z in
    let half := (2 ^ (e - 1))%Z in
    let q' :=
      if (r <? half)%Z then q
      else if (half <? r)%Z then (q + 1)%Z
      else if Z.even q then q else (q + 1)%Z in
    (q' * 2 ^ e)%Z.

(** The quotient [num / den] rounded to the nearest integer, ties to even. *)
Definition round_half_even (num den : Z) : Z :=
  let q := (num / den)%Z in
  let r := (num mod den)%Z in
  if (2 * r <? den)%Z then q
  else if (den <? 2 * r)%Z then (q + 1)%Z
  else if Z.even q then q else (q + 1)%Z.

(** [%.2f] of the float [f / 2^20], [f >= 0] an integer: the decimal
    expansion of the exact value, correctly rounded to two places (strconv
    rounds the exact decimal, ties to even). Dividing a float by 1024*1024
    only lowers its exponent, so [float64(size) / (1024 * 1024)] is exactly
    such a value. *)
Definition hundredths (f : Z) : Z := round_half_even (f * 100) (2 ^ 20).

Definition fmt_2f_MB (f : Z) : string :=
  let h := hundredths f in
  fmt_d (h / 100) +:+ "." +:+ fmt_d (h mod 100 / 10) +:+ fmt_d (h mod 10).

(** ** os: the file system

    A tree of directories and regular files, and the working directory of the
    process as the list of names leading to it from the root. Permissions,
    links and devices are not modelled: an operation fails only for the shape
    of the tree (a name that is missing, a file where a directory is needed, a
    directory where a file is needed). *)

Inductive node :=
  | File (data : list byte)
  | Dir (entries : gmap string node).

Inductive errno := ENOENT | ENOTDIR | EISDIR.

Record filesys := { fs_root : node; fs_cwd : list string }.

(** The root-relative names a path denotes: a rooted path starts at the root,
    any other at the working directory; empty and dot elements are skipped and
    dot-dot moves to the parent (the root is its own parent). *)
Definition resolve_step (stack : list string) (c : string) : list string :=
  if decide (c = EmptyString) then stack
  else if decide (c = ".") then stack
  else if decide (c = "..") then tail stack
  else c :: stack.

Definition resolve (cwd : list string) (path : string) : list string :=
  rev (fold_left resolve_step (split_slash path)
         (if HasPrefix path "/" then [] else rev cwd)).

Fixpoint walk (n : node) (p : list string) : errno + node :=
  match p with
  | [] => inr n
  | c :: p' =>
      match n with
      | File _ => inl ENOTDIR
      | Dir es =>
          match es !! c with
          | None => inl ENOENT
          | Some n' => walk n' p'
          end
      end
  end.

Definition lookup_path (fs : filesys) (path : string) : errno + node :=
  if decide (path = EmptyString) then inl ENOENT
  else walk (fs_root fs) (resolve (fs_cwd fs) path).

(** What the platform decides and the repository does not: the Unicode slow
    path of [strings.ToLower], and the size [Stat] reports for a directory. *)
Record platform := {
  unicode_lower : string -> string;
  dir_size : gmap string node -> Z;
}.

Record FileInfo := { Size : Z; IsDir : bool }.

Definition info_of (P : platform) (n : node) : FileInfo :=
  match n with
  | File data => {| Size := Z.of_nat (length data); IsDir := false |}
  | Dir es => {| Size := dir_size P es; IsDir := true |}
  end.

(** [os.Stat] *)
Definition os_Stat (P : platform) (fs : filesys) (path : string)
  : errno + FileInfo :=
  match lookup_path fs path with
  | inl e => inl e
  | inr n => inr (info_of P n)
  end.

(** [os.IsNotExist] *)
Definition IsNotExist {A} (r : errno + A) : bool :=
  match r with inl ENOENT => true | _ => false end.

(** [os.ReadDir]: the entries of a directory. *)
Definition os_ReadDir (fs : filesys) (path : string)
  : errno + list (string * node) :=
  match lookup_path fs path with
  | inl e => inl e
  | inr (File _) => inl ENOTDIR
  | inr (Dir es) => inr (map_to_list es)
  end.

(** [os.MkdirAll]: directories on the way are kept, missing ones are created,
    a regular file on the way is an error. *)
Fixpoint mkdir_all (n : node) (p : list string) : errno + node :=
  match n with
  | File _ => inl ENOTDIR
  | Dir es =>
      match p with
      | [] => inr n
      | c :: p' =>
          match mkdir_all (default (Dir ∅) (es !! c)) p' with
          | inl e => inl e
          | inr child => inr (Dir (<[c := child]> es))
          end
      end
  end.

Definition os_MkdirAll (fs : filesys) (path : string) : errno + filesys :=
  if decide (path = EmptyString) then inl ENOENT
  else match mkdir_all (fs_root fs) (resolve (fs_cwd fs) path) with
       | inl e => inl e
       | inr r => inr {| fs_root := r; fs_cwd := fs_cwd fs |}
       end.

(** The regular file at [p] gets the content [data]: it is created when
    missing and replaced when present. *)
Fixpoint put_file (n : node) (p : list string) (data : list byte)
  : errno + node :=
  match p with
  | [] => inl EISDIR
  | c :: p' =>
      match n with
      | File _ => inl ENOTDIR
      | Dir es =>
          match p' with
          | [] =>
              match es !! c with
              | Some (Dir _) => inl EISDIR
              | _ => inr (Dir (<[c := File data]> es))
              end
          | _ :: _ =>
              match es !! c with
              | None => inl ENOENT
              | Some child =>
                  match put_file child p' data with
                  | inl e => inl e
                  | inr child' => inr (Dir (<[c := child']> es))
                  end
              end
          end
      end
  end.

Definition write_path (fs : filesys) (path : string) (data : list byte)
  : errno + filesys :=
  if decide (path = EmptyString) then inl ENOENT
  else match put_file (fs_root fs) (resolve (fs_cwd fs) path) data with
       | inl e => inl e
       | inr r => inr {| fs_root := r; fs_cwd := fs_cwd fs |}
       end.

(** [os.Create]: open for writing, creating or truncating. *)
Definition os_Create (fs : filesys) (path : string) : errno + filesys :=
  write_path fs path [].

(** [io.Copy(out, file)] into the file just opened at [path]. [fault] is
    [Some k] when the copy breaks off with an error after [k] bytes. The
    result is the new file system and whether the copy returned an error. *)
Definition io_Copy (fs : filesys) (path : string) (payload : list byte)
    (fault : option nat) : filesys * bool :=
  let written := match fault with Some k => take k payload | None => payload end in
  (match write_path fs path written with inr fs' => fs' | inl _ => fs end,
   bool_decide (is_Some fault)).

(** ** net/http replies *)

Definition StatusOK : Z := 200.
Definition StatusBadRequest : Z := 400.
Definition StatusNotFound : Z := 404.
Definition StatusMethodNotAllowed : Z := 405.
Definition StatusInternalServerError : Z := 500.
Definition MethodPost : string := "POST".

(** What a handler wrote: a text, the JSON encoding of a string map, or the
    bytes of a file. *)
Inductive body :=
  | Text (s : string)
  | Json (m : gmap string string)
  | Bytes (data : list byte).

Record response := {
  status : Z;
  header : gmap string string;
  content : body;
}.

(** [http.Error]: plain text, the message and a line feed. *)
Definition http_Error (msg : string) (code : Z) : response :=
  {| status := code;
     header := {[ "Content-Type" := "text/plain; charset=utf-8";
                  "X-Content-Type-Options" := "nosniff" ]};
     content := Text (msg +:+ nl) |}.

(** [http.NotFound] *)
Definition http_NotFound : response :=
  http_Error "404 page not found" StatusNotFound.

(** A request as the handlers read it: the method, the path of the URL, and
    what [r.FormFile("file")] finds (the file name of the part and its
    bytes), [None] when it returns an error. *)
Record request := {
  Method : string;
  URL_Path : string;
  FormFile : option (string * list byte);
}.

(** What the handlers share: the file system and the entropy source. *)
Record world := { fs : filesys; entropy : list byte }.

(** ** main.go *)

Definition baseDir : string := "./files".
Definition BASE_URL : string := "https://i.kuuichi.xyz".

Definition allowed_literal : string := ".jpg.jpeg.png.gif.bmp".

Section Handlers.

Variable P : platform.

(** [FileUploadHandler]. [fault] tells whether and where [io.Copy] fails. *)
Definition FileUploadHandler (r : request) (fault : option nat) (w : world)
  : response * world :=
  if negb (String.eqb (Method r) MethodPost) then
    (http_Error "Invalid request method" StatusMethodNotAllowed, w)
  else
    match FormFile r with
    | None => (http_Error "Error retrieving file" StatusBadRequest, w)
    | Some (Filename, payload) =>
        match os_MkdirAll (fs w) baseDir with
        | inl _ =>
            (http_Error "Could not create directory" StatusInternalServerError, w)
        | inr fs1 =>
            let ext := ToLower (unicode_lower P) (Ext Filename) in
            if negb (Contains allowed_literal ext) then
              (http_Error "Invalid file type" StatusBadRequest,
               {| fs := fs1; entropy := entropy w |})
            else
              match RandomString (entropy w) 6 with
              | None =>
                  (http_Error "Error generating random filename"
                     StatusInternalServerError,
                   {| fs := fs1; entropy := entropy w |})
              | Some (randomFilename, rest) =>
                  let newFilename := randomFilename +:+ ext in
                  let filePath := Join [baseDir; newFilename] in
                  match os_Create fs1 filePath with
                  | inl _ =>
                      (http_Error "Error saving file" StatusInternalServerError,
                       {| fs := fs1; entropy := rest |})
                  | inr fs2 =>
                      let '(fs3, failed) := io_Copy fs2 filePath payload fault in
                      if failed then
                        (http_Error "Error copying file" StatusInternalServerError,
                         {| fs := fs3; entropy := rest |})
                      else
                        let imageUrl := BASE_URL +:+ "/f/" +:+ newFilename in
                        let rawUrl := BASE_URL +:+ "/files/" +:+ newFilename in
                        ({| status := StatusOK;
                            header := {[ "Content-Type" := "application/json" ]};
                            content := Json {[ "imageUrl" := imageUrl;
                                               "rawUrl" := rawUrl ]} |},
                         {| fs := fs3; entropy := rest |})
                  end
              end
        end
    end.

(** [countFiles] *)
Definition countFiles (f : filesys) (dir : string) : errno + Z :=
  match os_ReadDir f dir with
  | inl e => inl e
  | inr files => inr (Z.of_nat (length files))
  end.

(** The description line of the preview page. *)
Definition fileDescription (size totalUploads : Z) : string :=
  "Size: " +:+ fmt_2f_MB (float64_of_int size)
  +:+ " MB - Total uploads: " +:+ fmt_d totalUploads.

(** The pieces of the page, in order: the literal text of the format string
    and the ten arguments that replace its [%s] verbs. *)
Definition page_pieces (metaTitle metaDescription metaImage metaURL imageURL
    filename : string) : list string :=
  [ "<html>"; nl; tab; tab; "<head>"; nl;
    tab; tab; tab; "<title>"; metaTitle; "</title>"; nl;
    tab; tab; tab; "<meta charset="; dq; "UTF-8"; dq; ">"; nl;
    tab; tab; tab; "<meta name="; dq; "viewport"; dq; " content="; dq;
      "width=device-width, initial-scale=1.0"; dq; ">"; nl;
    tab; tab; tab; "<meta property="; dq; "og:title"; dq; " content="; dq;
      metaTitle; dq; ">"; nl;
    tab; tab; tab; "<meta property="; dq; "og:description"; dq; " content="; dq;
      metaDescription; dq; ">"; nl;
    tab; tab; tab; "<meta property="; dq; "og:image"; dq; " content="; dq;
      metaImage; dq; ">"; nl;
    tab; tab; tab; "<meta property="; dq; "og:url"; dq; " content="; dq;
      metaURL; dq; ">"; nl;
    tab; tab; tab; "<meta name="; dq; "twitter:card"; dq; " content="; dq;
      "summary_large_image"; dq; ">"; nl;
    tab; tab; tab; "<meta name="; dq; "twitter:title"; dq; " content="; dq;
      metaTitle; dq; ">"; nl;
    tab; tab; tab; "<meta name="; dq; "twitter:description"; dq; " content="; dq;
      metaDescription; dq; ">"; nl;
    tab; tab; tab; "<meta name="; dq; "twitter:image"; dq; " content="; dq;
      metaImage; dq; ">"; nl;
    tab; tab; "</head>"; nl;
    tab; tab; "<body>"; nl;
    tab; tab; tab; "<div>"; nl;
    tab; tab; tab; tab; "<img src="; dq; imageURL; dq; " alt="; dq; filename; dq;
      ">"; nl;
    tab; tab; tab; "</div>"; nl;
    tab; tab; "</body>"; nl;
    tab; "</html>" ].

Definition page_html (metaTitle metaDescription metaImage metaURL imageURL
    filename : string) : string :=
  String.concat EmptyString
    (page_pieces metaTitle metaDescription metaImage metaURL imageURL filename).

(** [serveImageHTML]: it only reads the world. *)
Definition serveImageHTML (r : request) (w : world) : response :=
  let filename := TrimPrefix (URL_Path r) "/f/" in
  let filePath := Join [baseDir; filename] in
  if IsNotExist (os_Stat P (fs w) filePath) then http_NotFound
  else
    match os_Stat P (fs w) filePath with
    | inl _ => http_NotFound
    | inr fileInfo =>
        let totalUploads :=
          match countFiles (fs w) baseDir with
          | inr n => n
          | inl _ => 0%Z
          end in
        let description := fileDescription (Size fileInfo) totalUploads in
        let imageURL := BASE_URL +:+ "/files/" +:+ filename in
        let pageURL := BASE_URL +:+ "/f/" +:+ filename in
        let metaTitle := filename in
        let metaDescription := description in
        let metaImage := imageURL in
        let metaURL := pageURL in
        let html :=
          page_html metaTitle metaDescription metaImage metaURL imageURL filename in
        {| status := StatusOK;
           header := {[ "Access-Control-Allow-Origin" := "*";
                        "Content-Type" := "text/html" ]};
           content := Text html |}
    end.

End Handlers.

(** ** The raw file route

    [http.StripPrefix("/files/", http.FileServer(http.Dir(baseDir)))] for a
    plain GET (no Range or conditional headers). The file server answers a
    regular file with its bytes; its redirects (a path ending in /index.html,
    a directory without or a file with a trailing slash) and its directory
    pages are one case here, [StaticOther]. *)
Inductive static_reply :=
  | ServeContent (data : list byte)
  | StaticNotFound
  | StaticOther.

Fixpoint HasSuffix (s suffix : string) : bool :=
  String.eqb s suffix
  || match s with
     | EmptyString => false
     | String _ s' => HasSuffix s' suffix
     end.

Definition StaticFileHandler (f : filesys) (url_path : string) : static_reply :=
  match drop_prefix url_path "/files/" with
  | None => StaticNotFound
  | Some p =>
      let upath := if HasPrefix p "/" then p else "/" +:+ p in
      if HasSuffix upath "/index.html" then StaticOther
      else
        match lookup_path f (Join [baseDir; Clean upath]) with
        | inl _ => StaticNotFound
        | inr (Dir _) => StaticOther
        | inr (File data) =>
            if HasSuffix upath "/" then StaticOther else ServeContent data
        end
  end.

(** ** HomeHandler and the routes of main

    [HomeHandler] prints the upload form; it sets no header and no status
    itself, so the status is 200. *)
Definition home_pieces : list string :=
  [ "<html>"; nl;
    tab; tab; "<body>"; nl;
    tab; tab; tab; "<h1>File Upload</h1>"; nl;
    tab; tab; tab; "<form action="; dq; "/upload"; dq; " method="; dq; "post"; dq;
      " enctype="; dq; "multipart/form-data"; dq; ">"; nl;
    tab; tab; tab; tab; "<input type="; dq; "file"; dq; " name="; dq; "file"; dq;
      " required>"; nl;
    tab; tab; tab; tab; "<button type="; dq; "submit"; dq; ">Upload</button>"; nl;
    tab; tab; tab; "</form>"; nl;
    tab; tab; "</body>"; nl;
    tab; "</html>" ].

Definition HomeHandler : response :=
  {| status := StatusOK;
     header := ∅;
     content := Text (String.concat EmptyString home_pieces) |}.

(** The patterns [main] registers with the default [ServeMux]. *)
Definition patterns : list string := ["/"; "/upload"; "/f/"; "/files/"].

Inductive route :=
  | RouteHome
  | RouteUpload
  | RoutePreview
  | RouteFiles
  | RouteRedirect (location : string)
  | RouteNotFound.

Definition handler_of (pattern : string) : route :=
  if decide (pattern = "/upload") then RouteUpload
  else if decide (pattern = "/f/") then RoutePreview
  else if decide (pattern = "/files/") then RouteFiles
  else RouteHome.

(** net/http [cleanPath]: the canonical path, a trailing slash kept. *)
Definition cleanPath (p : string) : string :=
  if decide (p = EmptyString) then "/"
  else
    let p := if HasPrefix p "/" then p else "/" +:+ p in
    let np := Clean p in
    if HasSuffix p "/" && negb (String.eqb np "/") then
      if (String.length p =? String.length np + 1)%nat && HasPrefix p np
      then p else np +:+ "/"
    else np.

(** [ServeMux]: a path that is a pattern goes to its handler; otherwise the
    longest pattern with a trailing slash that starts the path wins. *)
Definition mux_match (path : string) : route :=
  if decide (path ∈ patterns) then handler_of path
  else if HasPrefix path "/files/" then RouteFiles
  else if HasPrefix path "/f/" then RoutePreview
  else if HasPrefix path "/" then RouteHome
  else RouteNotFound.

(** A path that only lacks the trailing slash of a pattern is redirected. *)
Definition redirectToPathSlash (path : string) : bool :=
  if decide (path ∈ patterns) then false
  else if decide (path = EmptyString) then false
  else if decide (path +:+ "/" ∈ patterns) then negb (HasSuffix path "/")
  else false.

(** [ServeMux.Handler]: CONNECT requests are matched as they are, all others
    are redirected to their canonical path first. The path is [URL.Path], the
    decoded path: this is the mux before Go 1.22, and the mux since Go 1.22
    for a URL without percent-encoded octets (that mux canonicalises the
    escaped path, and its answers differ where the two paths do). *)
Definition dispatch (method path : string) : route :=
  if String.eqb method "CONNECT" then
    if redirectToPathSlash path then RouteRedirect (path +:+ "/")
    else mux_match path
  else
    let cp := cleanPath path in
    if redirectToPathSlash cp then RouteRedirect (cp +:+ "/")
    else if negb (String.eqb cp path) then RouteRedirect cp
    else mux_match path.

(** What a HEAD request to the raw file route gets: the file server sets the
    status and the headers it would set for GET and writes no body; for a
    regular file the headers carry its length. *)
Inductive head_reply :=
  | HeadFile (size : nat)
  | HeadNotFound
  | HeadOther.

Definition head_of (s : static_reply) : head_reply :=
  match s with
  | ServeContent data => HeadFile (length data)
  | StaticNotFound => HeadNotFound
  | StaticOther => HeadOther
  end.

(** What the handler of the route writes: the reply of one of the three
    handlers, of the raw file route (to HEAD, or to any other method), a
    redirect, or the not-found page of the mux. *)
Inductive reply :=
  | Handled (resp : response)
  | Raw (s : static_reply)
  | RawHead (h : head_reply)
  | Moved (location : string)
  | NoRoute.

Definition ServeHTTP (P : platform) (r : request) (fault : option nat)
    (w : world) : reply * world :=
  match dispatch (Method r) (URL_Path r) with
  | RouteHome => (Handled HomeHandler, w)
  | RouteUpload =>
      (Handled (FileUploadHandler P r fault w).1, (FileUploadHandler P r fault w).2)
  | RoutePreview => (Handled (serveImageHTML P r w), w)
  | RouteFiles =>
      if String.eqb (Method r) "HEAD"
      then (RawHead (head_of (StaticFileHandler (fs w) (URL_Path r))), w)
      else (Raw (StaticFileHandler (fs w) (URL_Path r)), w)
  | RouteRedirect location => (Moved location, w)
  | RouteNotFound => (NoRoute, w)
  end.

(** ** Vocabulary of the statements *)

(** Every byte of [s] satisfies [f]. *)
Fixpoint all_bytes (f : ascii -> bool) (s : string) : bool :=
  match s with
  | EmptyString => true
  | String c s' => f c && all_bytes f s'
  end.

Definition not_slash (c : ascii) : bool := negb (Ascii.eqb c slash).

Definition is_alnum (c : ascii) : bool :=
  let n := nat_of_ascii c in
  ((97 <=? n) && (n <=? 122) || (65 <=? n) && (n <=? 90)
   || (48 <=? n) && (n <=? 57))%nat.

(** The entries of the storage directory, when it is a directory. *)
Definition storage_entries (f : filesys) : option (gmap string node) :=
  match lookup_path f baseDir with
  | inr (Dir es) => Some es
  | _ => None
  end.

(** What [name] denotes once joined onto the storage root. *)
Definition stored (f : filesys) (name : string) : errno + node :=
  lookup_path f (Join [baseDir; name]).

(** The five extensions of the allow-list. *)
Definition allowed_extensions : list string :=
  [".jpg"; ".jpeg"; ".png"; ".gif"; ".bmp"].

Definition is_file (n : node) : bool :=
  match n with File _ => true | Dir _ => false end.

(** The reply of the upload handler on success. *)
Definition upload_ok (newFilename : string) : response :=
  {| status := StatusOK;
     header := {[ "Content-Type" := "application/json" ]};
     content := Json {[ "imageUrl" := BASE_URL +:+ "/f/" +:+ newFilename;
                        "rawUrl" := BASE_URL +:+ "/files/" +:+ newFilename ]} |}.

(** The reply of the preview handler for a file of [size] bytes when the
    count is [total]. *)
Definition preview_ok (filename : string) (size total : Z) : response :=
  let imageURL := BASE_URL +:+ "/files/" +:+ filename in
  let pageURL := BASE_URL +:+ "/f/" +:+ filename in
  {| status := StatusOK;
     header := {[ "Access-Control-Allow-Origin" := "*";
                  "Content-Type" := "text/html" ]};
     content := Text (page_html filename (fileDescription size total)
                        imageURL pageURL imageURL filename) |}.

(** A name that is one element of a path: no separator in it, and none of
    the empty name, dot and dot-dot. *)
Definition plain_name (name : string) : Prop :=
  all_bytes not_slash name = true
  /\ name <> EmptyString /\ name <> "." /\ name <> "..".

(** The entries a directory has, none when there is nothing or something
    else at the path. *)
Definition entries_at (n : node) (p : list string) : gmap string node :=
  match walk n p with inr (Dir es) => es | _ => ∅ end.

(** The count the preview page shows. *)
Definition total_uploads (f : filesys) : Z :=
  match storage_entries f with
  | Some es => Z.of_nat (size es)
  | None => 0%Z
  end.

(** Tags of the preview page. *)
Definition title_tag (t : string) : string := "<title>" +:+ t +:+ "</title>".

Definition meta_property (property value : string) : string :=
  "<meta property=" +:+ dq +:+ property +:+ dq +:+ " content=" +:+ dq
  +:+ value +:+ dq +:+ ">".

Definition meta_name (name value : string) : string :=
  "<meta name=" +:+ dq +:+ name +:+ dq +:+ " content=" +:+ dq
  +:+ value +:+ dq +:+ ">".

Definition img_tag (src alt : string) : string :=
  "<img src=" +:+ dq +:+ src +:+ dq +:+ " alt=" +:+ dq +:+ alt +:+ dq +:+ ">".

(** The extensions that pass the check of the upload handler: the empty
    one, the lone dot, and the dot followed by a prefix of jpg, jpeg, png, gif
    or bmp. *)
Definition accepted_extensions : list string :=
  [ EmptyString; "."; ".j"; ".jp"; ".jpg"; ".jpe"; ".jpeg"; ".p"; ".pn"; ".png";
    ".g"; ".gi"; ".gif"; ".b"; ".bm"; ".bmp" ].

Definition not_dot (c : ascii) : bool := negb (Ascii.eqb c dot).

(** The shape of what [filepath.Ext] returns: nothing, or a dot and then no
    further dot. *)
Definition ext_shape (e : string) : bool :=
  match e with
  | EmptyString => true
  | String c t => Ascii.eqb c dot && all_bytes not_dot t
  end.

(** All prefixes and all substrings of a string. *)
Fixpoint prefixes (s : string) : list string :=
  EmptyString ::
  match s with
  | EmptyString => []
  | String c s' => map (String c) (prefixes s')
  end.

Fixpoint substrings (s : string) : list string :=
  prefixes s ++
  match s with
  | EmptyString => []
  | String _ s' => substrings s'
  end.

(** ** Concrete inputs for the examples *)

(** A platform: directories report 4096 bytes; the Unicode path lowers the
    ASCII letters only (the examples use ASCII names, which never reach it). *)
Definition sample_platform : platform :=
  {| unicode_lower := map_bytes lower_byte; dir_size := fun _ => 4096%Z |}.

Definition empty_fs : filesys := {| fs_root := Dir ∅; fs_cwd := [] |}.

Definition zeros : list byte := [x00; x00; x00; x00; x00; x00].

Definition fresh_world : world := {| fs := empty_fs; entropy := zeros |}.

Definition post (name : string) (payload : list byte) : request :=
  {| Method := "POST"; URL_Path := "/upload"; FormFile := Some (name, payload) |}.

Definition get (path : string) : request :=
  {| Method := "GET"; URL_Path := path; FormFile := None |}.

Definition ten_bytes : list byte :=
  [x89; x50; x4e; x47; x0d; x0a; x1a; x0a; x00; x00].

(** The world after [pic.PNG] was uploaded to [fresh_world]. *)
Definition uploaded_world : world :=
  {| fs := {| fs_root := Dir {[ "files" := Dir {[ "aaaaaa.png" := File ten_bytes ]} ]};
              fs_cwd := [] |};
     entropy := [] |}.

(** A world in which a regular file stands where the storage directory
    should be. *)
Definition blocked_world : world :=
  {| fs := {| fs_root := Dir {[ "files" := File [x01] ]}; fs_cwd := [] |};
     entropy := zeros |}.

(** A world with a source file beside the (empty) storage directory. *)
Definition source_world : world :=
  {| fs := {| fs_root := Dir {[ "main.go" := File [x70; x61; x63];
                               "files" := Dir ∅ ]};
              fs_cwd := [] |};
     entropy := zeros |}.

(** A world whose storage directory already holds [aaaaaa.png]. *)
Definition taken_world : world :=
  {| fs := {| fs_root := Dir {[ "files" := Dir {[ "aaaaaa.png" := File [x01] ]} ]};
              fs_cwd := [] |};
     entropy := zeros |}.

(** * Properties *)

(** ** Strings *)

Lemma append_nil_l (t : string) : EmptyString +:+ t = t.
Proof. reflexivity. Qed.

Lemma append_cons (c : ascii) (s t : string) :
  String c s +:+ t = String c (s +:+ t).
Proof. reflexivity. Qed.

(** Pushes the appends of a goal inside the constructors of the strings. *)
Ltac push_append := rewrite ?append_cons, ?append_nil_l.

Lemma append_nil_r (s : string) : s +:+ EmptyString = s.
Proof. induction s as [|c s IH]; push_append; [done | by rewrite IH]. Qed.

Lemma append_assoc (a b c : string) : (a +:+ b) +:+ c = a +:+ (b +:+ c).
Proof. induction a as [|x a IH]; push_append; [done | by rewrite IH]. Qed.

Lemma length_append (a b : string) :
  String.length (a +:+ b) = (String.length a + String.length b)%nat.
Proof. induction a as [|x a IH]; push_append; simpl; [done | by rewrite IH]. Qed.

Lemma HasPrefix_spec (s p : string) :
  HasPrefix s p = true <-> exists t, s = p +:+ t.
Proof.
  revert s. induction p as [|a p IH]; intros s; simpl.
  - split; [intros _; by exists s | done].
  - destruct s as [|b s].
    + split; [done | intros [t Ht]; discriminate].
    + destruct (Ascii.eqb_spec a b) as [->|Hne].
      * rewrite IH. split; intros [t Ht]; exists t.
        -- by rewrite Ht.
        -- rewrite append_cons in Ht. by injection Ht.
      * split; [done | intros [t Ht]]. rewrite append_cons in Ht.
        injection Ht; intros; by subst.
Qed.

Lemma HasPrefix_append (p t : string) : HasPrefix (p +:+ t) p = true.
Proof. apply HasPrefix_spec. by exists t. Qed.

Lemma drop_prefix_append (p t : string) : drop_prefix (p +:+ t) p = Some t.
Proof.
  induction p as [|a p IH]; push_append; simpl; [done|].
  by rewrite Ascii.eqb_refl.
Qed.

Lemma Contains_spec (s sub : string) :
  Contains s sub = true <-> exists a b, s = a +:+ sub +:+ b.
Proof.
  induction s as [|c s IH].
  - simpl. rewrite orb_false_r, HasPrefix_spec. split.
    + intros [t Ht]. by exists EmptyString, t.
    + intros [a [b Hab]]. destruct a; [by exists b | discriminate].
  - cbn [Contains]. rewrite orb_true_iff, IH, HasPrefix_spec. split.
    + intros [[t Ht] | [a [b Hab]]].
      * by exists EmptyString, t.
      * exists (String c a), b. by rewrite append_cons, Hab.
    + intros [a [b Hab]]. destruct a as [|x a].
      * left. by exists b.
      * right. exists a, b. rewrite append_cons in Hab. by injection Hab.
Qed.

Lemma Contains_middle (a sub b : string) : Contains (a +:+ sub +:+ b) sub = true.
Proof. apply Contains_spec. by exists a, b. Qed.

Lemma all_bytes_append (f : ascii -> bool) (a b : string) :
  all_bytes f (a +:+ b) = all_bytes f a && all_bytes f b.
Proof.
  induction a as [|x a IH]; push_append; simpl; [done | by rewrite IH, andb_assoc].
Qed.

Lemma all_bytes_Contains (f : ascii -> bool) (s sub : string) :
  Contains s sub = true -> all_bytes f s = true -> all_bytes f sub = true.
Proof.
  rewrite Contains_spec. intros [a [b ->]].
  rewrite !all_bytes_append, !andb_true_iff. tauto.
Qed.

Lemma all_bytes_weaken (f g : ascii -> bool) (s : string) :
  (forall c, f c = true -> g c = true) ->
  all_bytes f s = true -> all_bytes g s = true.
Proof.
  intros Hfg. induction s as [|c s IH]; simpl; [done|].
  rewrite !andb_true_iff. intros [? ?]. auto.
Qed.

Lemma is_alnum_not_slash (c : ascii) : is_alnum c = true -> not_slash c = true.
Proof.
  unfold not_slash. destruct (Ascii.eqb_spec c slash) as [->|]; [|done].
  by vm_compute.
Qed.

Lemma concat_cons2 (a b : string) (l : list string) :
  String.concat EmptyString (a :: b :: l)
  = a +:+ String.concat EmptyString (b :: l).
Proof. reflexivity. Qed.

Lemma concat_app (l1 l2 : list string) :
  String.concat EmptyString (l1 ++ l2)
  = String.concat EmptyString l1 +:+ String.concat EmptyString l2.
Proof.
  induction l1 as [|a l1 IH]; [done|].
  destruct l1 as [|b l1].
  - destruct l2 as [|c l2]; [by rewrite append_nil_r | done].
  - rewrite <- !app_comm_cons, !concat_cons2, app_comm_cons, IH.
    by rewrite append_assoc.
Qed.

Lemma Contains_concat (l1 mid l2 : list string) :
  Contains (String.concat EmptyString (l1 ++ mid ++ l2))
    (String.concat EmptyString mid) = true.
Proof. rewrite !concat_app. apply Contains_middle. Qed.

(** ** RandomString *)

Lemma length_string_of_bytes (l : list ascii) :
  String.length (string_of_bytes l) = length l.
Proof. induction l as [|c l IH]; simpl; [done | by rewrite IH]. Qed.

Lemma get_string_of_bytes (l : list ascii) (i : nat) :
  String.get i (string_of_bytes l) = l !! i.
Proof.
  revert i. induction l as [|c l IH]; intros [|i]; simpl; auto.
Qed.

Lemma all_bytes_string_of_bytes (f : ascii -> bool) (l : list ascii) :
  Forall (fun c => f c = true) l -> all_bytes f (string_of_bytes l) = true.
Proof.
  induction 1 as [|c l Hc _ IH]; simpl; [done|]. by rewrite Hc, IH.
Qed.

Lemma charset_length : String.length charset = 62%nat.
Proof. reflexivity. Qed.

(** Every index below 62 selects a character of the alphabet, and that
    character is a letter or a digit. *)
Lemma charset_at_in_range (k : nat) :
  (k < 62)%nat ->
  String.get k charset = Some (charset_at k) /\ is_alnum (charset_at k) = true.
Proof.
  intros Hk.
  assert (Hall : forallb (fun k =>
            match String.get k charset with
            | Some c => Ascii.eqb c (charset_at k) && is_alnum (charset_at k)
            | None => false
            end) (seq 0 62) = true) by (vm_compute; reflexivity).
  rewrite forallb_forall in Hall.
  specialize (Hall k). rewrite in_seq in Hall.
  specialize (Hall ltac:(lia)).
  destruct (String.get k charset) as [c|]; [|done].
  apply andb_true_iff in Hall as [Hc Ha].
  apply Ascii.eqb_eq in Hc. by subst.
Qed.

Lemma charset_index_alnum (b : byte) :
  is_alnum (charset_at (Byte.to_nat b mod String.length charset)) = true.
Proof. apply charset_at_in_range, Nat.mod_upper_bound. discriminate. Qed.

Lemma RandomString_Some (entropy : list byte) (N : nat) (s : string)
    (rest : list byte) :
  RandomString entropy N = Some (s, rest) ->
  String.length s = N /\ all_bytes is_alnum s = true /\ rest = drop N entropy.
Proof.
  unfold RandomString, rand_Read. case_decide as HN; [|done].
  intros [= <- <-]. rewrite length_string_of_bytes, length_map, length_take.
  split; [lia|]. split; [|done].
  apply all_bytes_string_of_bytes, Forall_map, Forall_forall. intros b _.
  apply charset_index_alnum.
Qed.

(** C5. [RandomString N] fails exactly when the entropy source holds fewer
    than [N] bytes; otherwise it returns [N] characters, the [i]-th one being
    the character of the 62-character alphabet at index (i-th random byte)
    modulo 62, and it consumes exactly [N] bytes of the source. *)
Theorem RandomString_spec (entropy : list byte) (N : nat) :
  String.length charset = 62%nat /\
  match RandomString entropy N with
  | None => (length entropy < N)%nat
  | Some (s, rest) =>
      (N <= length entropy)%nat /\ String.length s = N /\ rest = drop N entropy /\
      forall i, (i < N)%nat ->
        exists b, entropy !! i = Some b /\
          String.get i s = Some (charset_at (Byte.to_nat b mod 62)) /\
          String.get (Byte.to_nat b mod 62) charset
          = Some (charset_at (Byte.to_nat b mod 62))
  end.
Proof.
  split; [reflexivity|].
  destruct (RandomString entropy N) as [[s rest]|] eqn:HR.
  - destruct (RandomString_Some _ _ _ _ HR) as (Hlen & _ & Hrest).
    unfold RandomString, rand_Read in HR. case_decide as HN; [|done].
    injection HR as <- _. repeat split; try done.
    intros i Hi.
    destruct (lookup_lt_is_Some_2 entropy i ltac:(lia)) as [b Hb].
    exists b. split; [done|]. split.
    + rewrite get_string_of_bytes, list_lookup_fmap, lookup_take_lt by done.
      by rewrite Hb.
    + apply charset_at_in_range. apply Nat.mod_upper_bound. lia.
  - unfold RandomString, rand_Read in HR. case_decide as HN; [done | lia].
Qed.

(** ** Paths *)

Lemma split_slash_not_nil (s : string) : split_slash s <> [].
Proof.
  induction s as [|c s IH]; simpl; [done|].
  destruct (Ascii.eqb c slash); [done|]. by destruct (split_slash s).
Qed.

Lemma split_slash_plain (s : string) :
  all_bytes not_slash s = true -> split_slash s = [s].
Proof.
  induction s as [|c s IH]; simpl; [done|].
  unfold not_slash at 1. rewrite andb_true_iff, negb_true_iff.
  intros [-> Hs]. by rewrite IH.
Qed.

Lemma split_slash_append (a b : string) :
  split_slash (a +:+ String slash b) = split_slash a ++ split_slash b.
Proof.
  induction a as [|c a IH]; push_append.
  - reflexivity.
  - cbn [split_slash]. rewrite IH. destruct (Ascii.eqb c slash); [done|].
    pose proof (split_slash_not_nil a). by destruct (split_slash a).
Qed.

Lemma clean_step_plain (rooted : bool) (stack : list string) (name : string) :
  plain_name name -> clean_step rooted stack name = name :: stack.
Proof.
  intros (_ & ? & ? & ?). unfold clean_step. by repeat case_decide.
Qed.

Lemma resolve_step_plain (stack : list string) (name : string) :
  plain_name name -> resolve_step stack name = name :: stack.
Proof.
  intros (_ & ? & ? & ?). unfold resolve_step. by repeat case_decide.
Qed.

Lemma plain_files : plain_name "files".
Proof. by repeat split. Qed.

Lemma Join_baseDir_plain (name : string) :
  plain_name name -> Join [baseDir; name] = "files/" +:+ name.
Proof.
  intros Hp. unfold Join. rewrite decide_False by done.
  unfold Clean. change (strings_Join [baseDir; name] "/")
    with ("./files" +:+ String slash name).
  replace (HasPrefix ("./files" +:+ String slash name) "/") with false
    by reflexivity.
  rewrite split_slash_append, (split_slash_plain name) by apply Hp.
  change (split_slash "./files") with ["."; "files"].
  cbn [app fold_left]. change (clean_step false [] ".") with (@nil string).
  rewrite (clean_step_plain _ _ _ plain_files), (clean_step_plain _ _ _ Hp).
  reflexivity.
Qed.

(** Behind a slash too, as the file server hands the name over. *)
Lemma Join_baseDir_rooted (name : string) :
  plain_name name -> Join [baseDir; Clean ("/" +:+ name)] = "files/" +:+ name.
Proof.
  intros Hp.
  assert (HC : Clean ("/" +:+ name) = "/" +:+ name).
  { unfold Clean. replace (HasPrefix ("/" +:+ name) "/") with true by reflexivity.
    change ("/" +:+ name) with (EmptyString +:+ String slash name).
    rewrite split_slash_append, (split_slash_plain name) by apply Hp.
    cbn [split_slash app fold_left]. change (clean_step true [] EmptyString) with (@nil string).
    by rewrite (clean_step_plain _ _ _ Hp). }
  rewrite HC. unfold Join. rewrite decide_False by done.
  unfold Clean. change (strings_Join [baseDir; "/" +:+ name] "/")
    with (("./files" +:+ String slash EmptyString) +:+ String slash name).
  replace (HasPrefix (("./files" +:+ String slash EmptyString) +:+ String slash name) "/")
    with false by reflexivity.
  rewrite split_slash_append, (split_slash_plain name) by apply Hp.
  change (split_slash ("./files" +:+ String slash EmptyString))
    with ["."; "files"; EmptyString].
  cbn [app fold_left]. change (clean_step false [] ".") with (@nil string).
  rewrite (clean_step_plain _ _ _ plain_files).
  change (clean_step false ["files"] EmptyString) with ["files"].
  by rewrite (clean_step_plain _ _ _ Hp).
Qed.

Lemma resolve_baseDir (cwd : list string) : resolve cwd baseDir = cwd ++ ["files"].
Proof.
  unfold resolve. change (split_slash baseDir) with ["."; "files"].
  change (HasPrefix baseDir "/") with false. cbn [fold_left].
  change (resolve_step (rev cwd) ".") with (rev cwd).
  rewrite (resolve_step_plain _ _ plain_files). simpl. by rewrite rev_involutive.
Qed.

Lemma resolve_files (cwd : list string) : resolve cwd "files" = cwd ++ ["files"].
Proof.
  unfold resolve. change (split_slash "files") with ["files"].
  change (HasPrefix "files" "/") with false. cbn [fold_left].
  rewrite (resolve_step_plain _ _ plain_files). simpl. by rewrite rev_involutive.
Qed.

Lemma resolve_stored (cwd : list string) (name : string) :
  plain_name name ->
  resolve cwd ("files/" +:+ name) = (cwd ++ ["files"]) ++ [name].
Proof.
  intros Hp. unfold resolve.
  change ("files/" +:+ name) with ("files" +:+ String slash name).
  replace (HasPrefix ("files" +:+ String slash name) "/") with false by reflexivity.
  rewrite split_slash_append, (split_slash_plain name) by apply Hp.
  change (split_slash "files") with ["files"]. cbn [app fold_left].
  rewrite (resolve_step_plain _ _ plain_files), (resolve_step_plain _ _ Hp).
  simpl. by rewrite rev_involutive.
Qed.

Lemma stored_path_not_empty (name : string) : "files/" +:+ name <> EmptyString.
Proof. done. Qed.

(** ** The file system *)

Lemma walk_app (n : node) (p q : list string) :
  walk n (p ++ q)
  = match walk n p with inl e => inl e | inr n' => walk n' q end.
Proof.
  revert n. induction p as [|c p IH]; intros n; [done|].
  simpl. destruct n as [|es]; [done|]. destruct (es !! c); [apply IH | done].
Qed.

Lemma entries_at_empty (p : list string) : entries_at (Dir ∅) p = ∅.
Proof. unfold entries_at. destruct p as [|c p]; simpl; [done|]. by rewrite lookup_empty. Qed.

(** After [MkdirAll] the path is a directory, with the entries it had. *)
Lemma mkdir_all_walk (p : list string) (n n' : node) :
  mkdir_all n p = inr n' -> walk n' p = inr (Dir (entries_at n p)).
Proof.
  revert n n'. induction p as [|c p IH]; intros [data|es] n'; simpl; try done.
  destruct (mkdir_all (default (Dir ∅) (es !! c)) p) as [e|child] eqn:Hm; [done|].
  intros [= <-]. rewrite lookup_insert_eq. rewrite (IH _ _ Hm).
  do 2 f_equal. unfold entries_at at 2. simpl.
  destruct (es !! c) as [n0|]; simpl; [done | apply entries_at_empty].
Qed.

(** [MkdirAll] fails exactly when a regular file is in the way. *)
Lemma mkdir_all_ok (p : list string) (n : node) (es : gmap string node) :
  walk n p = inr (Dir es) -> mkdir_all n p = inr n.
Proof.
  revert n. induction p as [|c p IH]; intros [data|es0]; simpl; try done.
  destruct (es0 !! c) as [n0|] eqn:Hc; [|done]. intros Hw. simpl.
  rewrite (IH _ Hw). by rewrite insert_id.
Qed.

Lemma put_file_cons (c : string) (p : list string) (c' : string)
    (es : gmap string node) (data : list byte) :
  put_file (Dir es) (c :: p ++ [c']) data
  = match es !! c with
    | None => inl ENOENT
    | Some child =>
        match put_file child (p ++ [c']) data with
        | inl e => inl e
        | inr child' => inr (Dir (<[c := child']> es))
        end
    end.
Proof.
  cbn [put_file]. destruct (p ++ [c']) eqn:E; [|done].
  by destruct p.
Qed.

(** Writing the file [c] of the directory at [p]. *)
Lemma put_file_inv (p : list string) (c : string) (data : list byte)
    (n n' : node) :
  put_file n (p ++ [c]) data = inr n' ->
  exists es, walk n p = inr (Dir es)
    /\ (forall sub, es !! c <> Some (Dir sub))
    /\ walk n' p = inr (Dir (<[c := File data]> es)).
Proof.
  revert n n'. induction p as [|x p IH]; intros [d|es] n'; try done.
  - simpl. destruct (es !! c) as [[d|sub]|] eqn:Hc; try done;
      intros [= Hn]; subst n'; exists es;
      (split; [done|]); (split; [intros sub; by rewrite Hc | done]).
  - rewrite <- app_comm_cons, put_file_cons. simpl.
    destruct (es !! x) as [child|] eqn:Hx; [|done].
    destruct (put_file child (p ++ [c]) data) as [e|child'] eqn:Hp; [done|].
    intros [= <-]. destruct (IH _ _ Hp) as (es' & Hw & Hno & Hw').
    exists es'. by rewrite lookup_insert_eq.
Qed.

Lemma put_file_ok (p : list string) (c : string) (data : list byte)
    (n : node) (es : gmap string node) :
  walk n p = inr (Dir es) ->
  (forall sub, es !! c <> Some (Dir sub)) ->
  exists n', put_file n (p ++ [c]) data = inr n'.
Proof.
  revert n. induction p as [|x p IH]; intros [d|es0]; try done.
  - simpl. intros [= ->] Hno. destruct (es !! c) as [[d|sub]|] eqn:Hc; eauto.
    by destruct (Hno sub).
  - rewrite <- app_comm_cons, put_file_cons. simpl.
    destruct (es0 !! x) as [child|] eqn:Hx; [|done].
    intros Hw Hno. destruct (IH _ Hw Hno) as [child' ->]. eauto.
Qed.

Lemma lookup_stored (f : filesys) (name : string) :
  plain_name name ->
  lookup_path f ("files/" +:+ name)
  = match lookup_path f baseDir with
    | inl e => inl e
    | inr (File _) => inl ENOTDIR
    | inr (Dir es) =>
        match es !! name with None => inl ENOENT | Some n => inr n end
    end.
Proof.
  intros Hp. unfold lookup_path. rewrite !decide_False by done.
  rewrite (resolve_stored _ _ Hp), resolve_baseDir, walk_app.
  destruct (walk (fs_root f) (fs_cwd f ++ ["files"])) as [e|[d|es]]; try done.
Qed.

(** ** The upload handler *)

Lemma storage_entries_at (f : filesys) :
  entries_at (fs_root f) (fs_cwd f ++ ["files"]) = default ∅ (storage_entries f).
Proof.
  unfold entries_at, storage_entries, lookup_path.
  rewrite decide_False by done. rewrite resolve_baseDir.
  by destruct (walk (fs_root f) (fs_cwd f ++ ["files"])) as [e|[d|es]].
Qed.

(** After [os.MkdirAll(baseDir)] the storage directory is a directory, with
    the entries it had before (none if it was missing). *)
Lemma MkdirAll_storage (f f1 : filesys) :
  os_MkdirAll f baseDir = inr f1 ->
  fs_cwd f1 = fs_cwd f
  /\ storage_entries f1 = Some (default ∅ (storage_entries f)).
Proof.
  unfold os_MkdirAll. rewrite decide_False by done. rewrite resolve_baseDir.
  destruct (mkdir_all _ _) as [e|root1] eqn:Hm; [done|]. intros [= <-].
  split; [done|]. unfold storage_entries at 1, lookup_path. cbn [fs_root fs_cwd].
  rewrite decide_False by done. rewrite resolve_baseDir.
  by rewrite (mkdir_all_walk _ _ _ Hm), storage_entries_at.
Qed.

(** Writing a plain name below the storage directory. *)
Lemma write_path_stored (f f' : filesys) (name : string) (data : list byte) :
  plain_name name ->
  write_path f ("files/" +:+ name) data = inr f' ->
  exists es, storage_entries f = Some es
    /\ (forall sub, es !! name <> Some (Dir sub))
    /\ fs_cwd f' = fs_cwd f
    /\ storage_entries f' = Some (<[name := File data]> es).
Proof.
  intros Hp. unfold write_path. rewrite decide_False by done.
  rewrite (resolve_stored _ _ Hp).
  destruct (put_file _ _ _) as [e|root'] eqn:Hput; [done|]. intros [= <-].
  destruct (put_file_inv _ _ _ _ _ Hput) as (es & Hw & Hno & Hw').
  exists es. unfold storage_entries, lookup_path. cbn [fs_root fs_cwd].
  rewrite !decide_False by done. rewrite resolve_baseDir, Hw, Hw'. done.
Qed.

Lemma write_path_stored_ok (f : filesys) (name : string) (data : list byte)
    (es : gmap string node) :
  plain_name name ->
  storage_entries f = Some es ->
  (forall sub, es !! name <> Some (Dir sub)) ->
  exists f', write_path f ("files/" +:+ name) data = inr f'.
Proof.
  intros Hp Hes Hno. unfold write_path. rewrite decide_False by done.
  rewrite (resolve_stored _ _ Hp).
  unfold storage_entries, lookup_path in Hes.
  rewrite decide_False in Hes by done. rewrite resolve_baseDir in Hes.
  destruct (walk _ _) as [e|[d|es0]] eqn:Hw; try done. injection Hes as ->.
  destruct (put_file_ok _ name data _ _ Hw Hno) as [root' ->]. eauto.
Qed.

Lemma stored_lookup (f : filesys) (name : string) (es : gmap string node) :
  plain_name name ->
  storage_entries f = Some es ->
  stored f name = match es !! name with None => inl ENOENT | Some n => inr n end.
Proof.
  intros Hp Hes. unfold stored. rewrite (Join_baseDir_plain _ Hp), (lookup_stored _ _ Hp).
  unfold storage_entries in Hes.
  destruct (lookup_path f baseDir) as [e|[d|es0]]; try done. by injection Hes as ->.
Qed.

(** The name the handler makes up is a plain name. *)
Lemma generated_name_plain (rnd ext : string) :
  String.length rnd = 6%nat ->
  all_bytes is_alnum rnd = true ->
  Contains allowed_literal ext = true ->
  plain_name (rnd +:+ ext).
Proof.
  intros Hlen Hal Hext. split.
  - rewrite all_bytes_append. apply andb_true_iff. split.
    + eapply all_bytes_weaken; [apply is_alnum_not_slash | done].
    + by apply (all_bytes_Contains _ _ _ Hext).
  - repeat split; intros Heq; apply (f_equal String.length) in Heq;
      rewrite length_append, Hlen in Heq; simpl in Heq; lia.
Qed.

Lemma HasSuffix_spec (s suffix : string) :
  HasSuffix s suffix = true -> exists a, s = a +:+ suffix.
Proof.
  induction s as [|c s IH]; cbn [HasSuffix]; rewrite orb_true_iff.
  - intros [H|H]; [|done]. apply String.eqb_eq in H. by exists EmptyString.
  - intros [H|H].
    + apply String.eqb_eq in H. by exists EmptyString.
    + destruct (IH H) as [a ->]. by exists (String c a).
Qed.

Lemma HasSuffix_plain (s suffix : string) :
  all_bytes not_slash s = true ->
  all_bytes not_slash suffix = false ->
  HasSuffix s suffix = false.
Proof.
  intros Hs Hsuf. destruct (HasSuffix s suffix) eqn:H; [|done].
  destruct (HasSuffix_spec _ _ H) as [a ->].
  rewrite all_bytes_append, andb_true_iff in Hs. destruct Hs as [_ Hs]. congruence.
Qed.

Lemma generated_name_not_index (rnd ext : string) :
  String.length rnd = 6%nat ->
  all_bytes is_alnum rnd = true ->
  rnd +:+ ext <> "index.html".
Proof.
  intros Hlen Hal Heq.
  destruct rnd as [|c1 [|c2 [|c3 [|c4 [|c5 [|c6 [|c7 rnd]]]]]]]; try done.
  rewrite !append_cons in Heq. injection Heq as -> -> -> -> -> -> _.
  by vm_compute in Hal.
Qed.

(** The raw file route hands out a stored regular file byte for byte. *)
Lemma static_fetch (f : filesys) (name : string) (data : list byte) :
  plain_name name ->
  name <> "index.html" ->
  stored f name = inr (File data) ->
  StaticFileHandler f ("/files/" +:+ name) = ServeContent data.
Proof.
  intros Hp Hidx Hst. unfold StaticFileHandler.
  rewrite drop_prefix_append.
  destruct Hp as (Hns & Hne & Hd & Hdd).
  assert (HP : HasPrefix name "/" = false).
  { destruct name as [|c name]; [done|]. cbn [all_bytes] in Hns.
    apply andb_true_iff in Hns as [Hc _]. unfold not_slash in Hc.
    change (HasPrefix (String c name) "/")
      with (if Ascii.eqb slash c then true else false).
    rewrite Ascii.eqb_sym. by destruct (Ascii.eqb c slash). }
  rewrite HP.
  assert (HS1 : HasSuffix ("/" +:+ name) "/index.html" = false).
  { rewrite append_cons, append_nil_l. cbn [HasSuffix].
    rewrite (HasSuffix_plain name) by done. rewrite orb_false_r.
    apply String.eqb_neq. intros [= ?]. done. }
  assert (HS2 : HasSuffix ("/" +:+ name) "/" = false).
  { rewrite append_cons, append_nil_l. cbn [HasSuffix].
    rewrite (HasSuffix_plain name) by done. rewrite orb_false_r.
    apply String.eqb_neq. intros [= ?]. done. }
  rewrite HS1, HS2.
  rewrite Join_baseDir_rooted by done.
  unfold stored in Hst. rewrite Join_baseDir_plain in Hst by done.
  by rewrite Hst.
Qed.

Section Upload.

Variable P : platform.

(** What a 200 of the upload handler tells about the run. *)
Lemma upload_ok_inv (r : request) (fault : option nat) (w : world) :
  status (FileUploadHandler P r fault w).1 = StatusOK ->
  exists Filename payload rnd rest fs1 fs2 fs3,
    let ext := ToLower (unicode_lower P) (Ext Filename) in
    Method r = MethodPost
    /\ FormFile r = Some (Filename, payload)
    /\ os_MkdirAll (fs w) baseDir = inr fs1
    /\ Contains allowed_literal ext = true
    /\ RandomString (entropy w) 6 = Some (rnd, rest)
    /\ os_Create fs1 (Join [baseDir; rnd +:+ ext]) = inr fs2
    /\ fault = None
    /\ io_Copy fs2 (Join [baseDir; rnd +:+ ext]) payload None = (fs3, false)
    /\ FileUploadHandler P r fault w
       = (upload_ok (rnd +:+ ext), {| fs := fs3; entropy := rest |}).
Proof.
  unfold FileUploadHandler.
  destruct (String.eqb_spec (Method r) MethodPost) as [HM|HM]; [|done].
  cbn [negb].
  destruct (FormFile r) as [[Filename payload]|]; [|done].
  destruct (os_MkdirAll (fs w) baseDir) as [e|fs1]; [done|].
  destruct (Contains allowed_literal (ToLower (unicode_lower P) (Ext Filename)))
    eqn:Hgate; [|done].
  cbn [negb].
  destruct (RandomString (entropy w) 6) as [[rnd rest]|]; [|done].
  destruct (os_Create fs1 _) as [e|fs2] eqn:Hcreate; [done|].
  destruct (io_Copy fs2 _ payload fault) as [fs3 failed] eqn:Hcopy.
  destruct fault as [k|]; unfold io_Copy in Hcopy; injection Hcopy as Hfs <-; [done|].
  intros _. exists Filename, payload, rnd, rest, fs1, fs2, fs3. simpl.
  repeat split; try done. unfold io_Copy. by rewrite Hfs.
Qed.

(** An extension that fails the check is answered 400, and the storage
    directory has the entries it had (it is made, empty, when missing). *)
Lemma upload_rejected_extension (r : request) (fault : option nat) (w : world)
    (Filename : string) (payload : list byte) (fs1 : filesys) :
  Method r = MethodPost ->
  FormFile r = Some (Filename, payload) ->
  os_MkdirAll (fs w) baseDir = inr fs1 ->
  Contains allowed_literal (ToLower (unicode_lower P) (Ext Filename)) = false ->
  (FileUploadHandler P r fault w).1 = http_Error "Invalid file type" StatusBadRequest
  /\ storage_entries (fs (FileUploadHandler P r fault w).2)
     = Some (default ∅ (storage_entries (fs w)))
  /\ entropy (FileUploadHandler P r fault w).2 = entropy w.
Proof.
  intros HM HF Hmk Hgate. unfold FileUploadHandler. rewrite HM, HF.
  replace (String.eqb MethodPost MethodPost) with true by reflexivity.
  cbn [negb]. rewrite Hmk, Hgate. cbn [negb fst snd fs entropy].
  split; [done|]. split; [|done]. by apply MkdirAll_storage.
Qed.

(** C3. A request to the upload handler whose method is not POST is answered
    405 (method not allowed) and the world, file system included, is left as
    it was. *)
Theorem upload_non_post (r : request) (fault : option nat) (w : world) :
  Method r <> MethodPost ->
  FileUploadHandler P r fault w
  = (http_Error "Invalid request method" StatusMethodNotAllowed, w)
  /\ status (FileUploadHandler P r fault w).1 = 405%Z
  /\ (FileUploadHandler P r fault w).2 = w.
Proof.
  intros HM. unfold FileUploadHandler.
  destruct (String.eqb_spec (Method r) MethodPost) as [HM'|_]; [done|].
  by cbn [negb].
Qed.

(** C4. A successful upload is answered 200 with a JSON object of exactly the
    two fields imageUrl = BASE_URL/f/name and rawUrl = BASE_URL/files/name,
    where name is the six random alphanumeric characters followed by the
    lowercased extension of the original file name. *)
Theorem upload_ok_reply (r : request) (fault : option nat) (w : world) :
  status (FileUploadHandler P r fault w).1 = StatusOK ->
  exists Filename payload rnd rest m,
    let name := rnd +:+ ToLower (unicode_lower P) (Ext Filename) in
    FormFile r = Some (Filename, payload)
    /\ RandomString (entropy w) 6 = Some (rnd, rest)
    /\ String.length rnd = 6%nat
    /\ all_bytes is_alnum rnd = true
    /\ status (FileUploadHandler P r fault w).1 = 200%Z
    /\ content (FileUploadHandler P r fault w).1 = Json m
    /\ dom m = ({[ "imageUrl"; "rawUrl" ]} : gset string)
    /\ m !! "imageUrl" = Some (BASE_URL +:+ "/f/" +:+ name)
    /\ m !! "rawUrl" = Some (BASE_URL +:+ "/files/" +:+ name).
Proof.
  intros Hok.
  destruct (upload_ok_inv r fault w Hok)
    as (Filename & payload & rnd & rest & fs1 & fs2 & fs3 & H).
  cbn zeta in H. destruct H as (_ & HF & _ & _ & HR & _ & _ & _ & ->).
  destruct (RandomString_Some _ _ _ _ HR) as (Hlen & Hal & _).
  eexists Filename, payload, rnd, rest, _. cbn zeta.
  repeat split; done.
Qed.

(** C2, as the code has it. A successful upload writes exactly one entry of
    the storage directory, the one named by the generated name: it is created
    when no entry has that name and replaces the entry when one has; all other
    entries stay. The stored bytes are the uploaded payload, and the raw file
    route answers the path of rawUrl with these bytes. *)
Theorem upload_ok_store (r : request) (fault : option nat) (w : world) :
  status (FileUploadHandler P r fault w).1 = StatusOK ->
  exists Filename payload name,
    let w' := (FileUploadHandler P r fault w).2 in
    FormFile r = Some (Filename, payload)
    /\ content (FileUploadHandler P r fault w).1
       = Json {[ "imageUrl" := BASE_URL +:+ "/f/" +:+ name;
                 "rawUrl" := BASE_URL +:+ "/files/" +:+ name ]}
    /\ storage_entries (fs w')
       = Some (<[name := File payload]> (default ∅ (storage_entries (fs w))))
    /\ stored (fs w') name = inr (File payload)
    /\ StaticFileHandler (fs w') ("/files/" +:+ name) = ServeContent payload.
Proof.
  intros Hok.
  destruct (upload_ok_inv r fault w Hok)
    as (Filename & payload & rnd & rest & fs1 & fs2 & fs3 & H).
  cbn zeta in H.
  destruct H as (_ & HF & Hmk & Hgate & HR & Hcr & _ & Hcp & ->).
  destruct (RandomString_Some _ _ _ _ HR) as (Hlen & Hal & _).
  pose proof (generated_name_plain _ _ Hlen Hal Hgate) as Hp.
  set (name := rnd +:+ ToLower (unicode_lower P) (Ext Filename)) in *.
  rewrite (Join_baseDir_plain _ Hp) in Hcr, Hcp.
  destruct (MkdirAll_storage _ _ Hmk) as [_ Hes1].
  destruct (write_path_stored _ _ _ _ Hp Hcr) as (es & Hes & Hno & _ & Hes2).
  rewrite Hes1 in Hes. injection Hes as <-.
  unfold io_Copy in Hcp. injection Hcp as Hfs3.
  assert (Hno2 : forall sub,
            <[name := File []]> (default ∅ (storage_entries (fs w))) !! name
            <> Some (Dir sub)) by (intros sub; by rewrite lookup_insert_eq).
  destruct (write_path_stored_ok fs2 name payload _ Hp Hes2 Hno2) as [fs3' Hw3].
  rewrite Hw3 in Hfs3. subst fs3'.
  destruct (write_path_stored _ _ _ _ Hp Hw3) as (es' & Hes' & _ & _ & Hes3).
  rewrite Hes2 in Hes'. injection Hes' as <-. rewrite insert_insert_eq in Hes3.
  assert (Hst : stored fs3 name = inr (File payload)).
  { rewrite (stored_lookup _ _ _ Hp Hes3). by rewrite lookup_insert_eq. }
  exists Filename, payload, name. cbn zeta. cbn [fst snd fs content upload_ok].
  repeat split; try done.
  apply static_fetch; [done | by apply generated_name_not_index | done].
Qed.

(** C9. An original file name without extension passes the extension check
    (the empty string is a substring of the literal), so the upload is never
    answered "Invalid file type"; when nothing else fails (the directory can
    be made, six random bytes are there, no directory has the name, the copy
    runs through) it is answered 200 and the payload is stored under the bare
    six-character random name. *)
Theorem upload_no_extension (r : request) (fault : option nat) (w : world)
    (Filename : string) (payload : list byte) :
  Method r = MethodPost ->
  FormFile r = Some (Filename, payload) ->
  Ext Filename = EmptyString ->
  Contains allowed_literal (ToLower (unicode_lower P) (Ext Filename)) = true
  /\ (FileUploadHandler P r fault w).1 <> http_Error "Invalid file type" StatusBadRequest
  /\ forall fs1 rnd rest,
       os_MkdirAll (fs w) baseDir = inr fs1 ->
       RandomString (entropy w) 6 = Some (rnd, rest) ->
       (forall sub, stored fs1 rnd <> inr (Dir sub)) ->
       fault = None ->
       (FileUploadHandler P r fault w).1 = upload_ok rnd
       /\ String.length rnd = 6%nat
       /\ stored (fs (FileUploadHandler P r fault w).2) rnd = inr (File payload).
Proof.
  intros HM HF HE.
  assert (Hext : ToLower (unicode_lower P) (Ext Filename) = EmptyString)
    by (by rewrite HE).
  assert (Hgate : Contains allowed_literal (ToLower (unicode_lower P) (Ext Filename))
                  = true) by (by rewrite Hext).
  split; [done|]. split.
  - unfold FileUploadHandler. rewrite HM, HF. cbn [String.eqb negb].
    replace (String.eqb MethodPost MethodPost) with true by reflexivity.
    cbn [negb]. destruct (os_MkdirAll (fs w) baseDir) as [e|fs1]; [done|].
    rewrite Hgate. cbn [negb].
    destruct (RandomString (entropy w) 6) as [[rnd rest]|]; [|done].
    destruct (os_Create fs1 _) as [e|fs2]; [done|].
    destruct (io_Copy fs2 _ payload fault) as [fs3 [|]]; done.
  - intros fs1 rnd rest Hmk HR Hno ->.
    destruct (RandomString_Some _ _ _ _ HR) as (Hlen & Hal & _).
    pose proof (generated_name_plain _ _ Hlen Hal Hgate) as Hp.
    rewrite Hext, append_nil_r in Hp.
    destruct (MkdirAll_storage _ _ Hmk) as [_ Hes1].
    assert (Hno1 : forall sub,
              default ∅ (storage_entries (fs w)) !! rnd <> Some (Dir sub)).
    { intros sub Hsub. apply (Hno sub).
      by rewrite (stored_lookup _ _ _ Hp Hes1), Hsub. }
    destruct (write_path_stored_ok fs1 rnd [] _ Hp Hes1 Hno1) as [fs2 Hcr].
    destruct (write_path_stored _ _ _ _ Hp Hcr) as (es & Hes & _ & _ & Hes2).
    assert (Hno2 : forall sub, <[rnd := File []]> es !! rnd <> Some (Dir sub))
      by (intros sub; by rewrite lookup_insert_eq).
    destruct (write_path_stored_ok fs2 rnd payload _ Hp Hes2 Hno2) as [fs3 Hw3].
    destruct (write_path_stored _ _ _ _ Hp Hw3) as (es' & Hes' & _ & _ & Hes3).
    unfold FileUploadHandler. rewrite HM, HF.
    replace (String.eqb MethodPost MethodPost) with true by reflexivity.
    cbn [negb]. rewrite Hmk, Hgate. cbn [negb]. rewrite HR, Hext, append_nil_r.
    rewrite (Join_baseDir_plain _ Hp). unfold os_Create. rewrite Hcr.
    unfold io_Copy. rewrite Hw3. cbn [bool_decide fst snd fs].
    replace (bool_decide (is_Some (@None nat))) with false by reflexivity.
    cbn [fst snd fs]. repeat split; try done.
    rewrite (stored_lookup _ _ _ Hp Hes3). by rewrite lookup_insert_eq.
Qed.

End Upload.

(** The five extensions of the allow-list pass the check. *)
Lemma allowed_extensions_pass :
  Forall (fun e => Contains allowed_literal e = true) allowed_extensions.
Proof. repeat constructor. Qed.

(** C1, where the code leaves it. The check is a substring test against the
    literal, not membership in the list: the upload of [notes.jp], whose
    extension is none of the five, is answered 200 and stored. *)
Theorem upload_accepts_partial_extension :
  ToLower (unicode_lower sample_platform) (Ext "notes.jp") = ".jp"
  /\ (".jp" ∉ allowed_extensions)
  /\ Contains allowed_literal ".jp" = true
  /\ FileUploadHandler sample_platform (post "notes.jp" [x01; x02]) None fresh_world
     = (upload_ok "aaaaaa.jp",
        {| fs := {| fs_root := Dir {[ "files" := Dir {[ "aaaaaa.jp" := File [x01; x02] ]} ]};
                    fs_cwd := [] |};
           entropy := [] |})
  /\ status (upload_ok "aaaaaa.jp") = 200%Z.
Proof.
  split; [reflexivity|]. split.
  - unfold allowed_extensions. rewrite !elem_of_cons, elem_of_nil.
    intros [H|[H|[H|[H|[H|[]]]]]]; discriminate H.
  - repeat split; vm_compute; reflexivity.
Qed.

Lemma upload_non_post_witness :
  Method (get "/upload") <> MethodPost
  /\ FileUploadHandler sample_platform (get "/upload") None fresh_world
     = (http_Error "Invalid request method" StatusMethodNotAllowed, fresh_world)
  /\ status (FileUploadHandler sample_platform (get "/upload") None fresh_world).1
     = 405%Z
  /\ (FileUploadHandler sample_platform (get "/upload") None fresh_world).2
     = fresh_world.
Proof.
  split; [discriminate|].
  apply (upload_non_post sample_platform (get "/upload") None fresh_world).
  discriminate.
Defined.

Lemma upload_ok_reply_witness :
  exists Filename payload rnd rest m,
    let name := rnd +:+ ToLower (unicode_lower sample_platform) (Ext Filename) in
    FormFile (post "pic.PNG" [x01; x02]) = Some (Filename, payload)
    /\ RandomString (entropy fresh_world) 6 = Some (rnd, rest)
    /\ String.length rnd = 6%nat
    /\ all_bytes is_alnum rnd = true
    /\ status (FileUploadHandler sample_platform (post "pic.PNG" [x01; x02])
                 None fresh_world).1 = 200%Z
    /\ content (FileUploadHandler sample_platform (post "pic.PNG" [x01; x02])
                  None fresh_world).1 = Json m
    /\ dom m = ({[ "imageUrl"; "rawUrl" ]} : gset string)
    /\ m !! "imageUrl" = Some (BASE_URL +:+ "/f/" +:+ name)
    /\ m !! "rawUrl" = Some (BASE_URL +:+ "/files/" +:+ name).
Proof.
  apply (upload_ok_reply sample_platform (post "pic.PNG" [x01; x02]) None fresh_world).
  vm_compute. reflexivity.
Defined.

Lemma upload_ok_store_witness :
  exists Filename payload name,
    let w' := (FileUploadHandler sample_platform (post "pic.PNG" [x01; x02])
                 None taken_world).2 in
    FormFile (post "pic.PNG" [x01; x02]) = Some (Filename, payload)
    /\ content (FileUploadHandler sample_platform (post "pic.PNG" [x01; x02])
                  None taken_world).1
       = Json {[ "imageUrl" := BASE_URL +:+ "/f/" +:+ name;
                 "rawUrl" := BASE_URL +:+ "/files/" +:+ name ]}
    /\ storage_entries (fs w')
       = Some (<[name := File payload]>
                 (default ∅ (storage_entries (fs taken_world))))
    /\ stored (fs w') name = inr (File payload)
    /\ StaticFileHandler (fs w') ("/files/" +:+ name) = ServeContent payload.
Proof.
  apply (upload_ok_store sample_platform (post "pic.PNG" [x01; x02]) None taken_world).
  vm_compute. reflexivity.
Defined.

(** C2 as stated fails when the generated name is taken: the upload is
    answered 200, yet the storage directory holds one entry before and one
    entry after, and the bytes stored before are gone. *)
Lemma upload_collision_no_new_file :
  status (FileUploadHandler sample_platform (post "x.png" [x02; x03])
            None taken_world).1 = 200%Z
  /\ storage_entries (fs taken_world) = Some {[ "aaaaaa.png" := File [x01] ]}
  /\ storage_entries
       (fs (FileUploadHandler sample_platform (post "x.png" [x02; x03])
              None taken_world).2)
     = Some {[ "aaaaaa.png" := File [x02; x03] ]}
  /\ size <$> storage_entries (fs taken_world) = Some 1%nat
  /\ size <$> storage_entries
       (fs (FileUploadHandler sample_platform (post "x.png" [x02; x03])
              None taken_world).2) = Some 1%nat.
Proof. repeat split; vm_compute; reflexivity. Qed.

Lemma upload_no_extension_witness :
  Method (post "README" [x01]) = MethodPost
  /\ FormFile (post "README" [x01]) = Some ("README", [x01])
  /\ Ext "README" = EmptyString
  /\ os_MkdirAll (fs fresh_world) baseDir
     = inr {| fs_root := Dir {[ "files" := Dir ∅ ]}; fs_cwd := [] |}
  /\ RandomString (entropy fresh_world) 6 = Some ("aaaaaa", [])
  /\ (FileUploadHandler sample_platform (post "README" [x01]) None fresh_world).1
     = upload_ok "aaaaaa"
  /\ stored (fs (FileUploadHandler sample_platform (post "README" [x01])
                   None fresh_world).2) "aaaaaa" = inr (File [x01]).
Proof.
  pose proof (upload_no_extension sample_platform (post "README" [x01]) None
                fresh_world "README" [x01] eq_refl eq_refl eq_refl) as (_ & _ & H).
  assert (Hmk : os_MkdirAll (fs fresh_world) baseDir
                = inr {| fs_root := Dir {[ "files" := Dir ∅ ]}; fs_cwd := [] |})
    by (vm_compute; reflexivity).
  assert (HR : RandomString (entropy fresh_world) 6 = Some ("aaaaaa", []))
    by (vm_compute; reflexivity).
  destruct (H _ _ _ Hmk HR) as (H1 & _ & H2).
  - intros sub. vm_compute. discriminate.
  - reflexivity.
  - repeat split; assumption.
Defined.

(** ** Formatting *)

Lemma fmt_d_digit (d : Z) :
  (0 <= d <= 9)%Z -> String.length (fmt_d d) = 1%nat.
Proof.
  intros Hd.
  assert (d = 0 \/ d = 1 \/ d = 2 \/ d = 3 \/ d = 4 \/ d = 5 \/ d = 6 \/ d = 7
          \/ d = 8 \/ d = 9)%Z as Hcases by lia.
  repeat (destruct Hcases as [->|Hcases]; [reflexivity|]). by subst.
Qed.

Lemma tens_digit (h : Z) : (0 <= h mod 100 / 10 <= 9)%Z.
Proof.
  pose proof (Z.mod_pos_bound h 100 ltac:(lia)). split.
  - apply Z.div_pos; lia.
  - apply Z.lt_succ_r, Z.div_lt_upper_bound; lia.
Qed.

Lemma ones_digit (h : Z) : (0 <= h mod 10 <= 9)%Z.
Proof. pose proof (Z.mod_pos_bound h 10 ltac:(lia)). lia. Qed.

(** Rounding to the nearest integer errs by at most one half. *)
Lemma round_half_even_near (num den : Z) :
  (0 < den)%Z ->
  (2 * Z.abs (round_half_even num den * den - num) <= den)%Z.
Proof.
  intros Hden. unfold round_half_even.
  pose proof (Z.div_mod num den ltac:(lia)) as Hdm.
  pose proof (Z.mod_pos_bound num den Hden) as Hr.
  destruct (Z.ltb_spec (2 * (num mod den)) den);
    [|destruct (Z.ltb_spec den (2 * (num mod den))); [|destruct (Z.even _)]];
    nia.
Qed.

Lemma float64_of_int_exact (n : Z) : (n < 2 ^ 53)%Z -> float64_of_int n = n.
Proof.
  intros Hn. unfold float64_of_int.
  by destruct (Z.ltb_spec n (2 ^ 53)); [|lia].
Qed.

(** The two decimals of the size line are the nearest hundredth of a
    megabyte. *)
Lemma hundredths_near (size : Z) :
  (0 <= size < 2 ^ 53)%Z ->
  (2 * Z.abs (hundredths (float64_of_int size) * 2 ^ 20 - 100 * size) <= 2 ^ 20)%Z.
Proof.
  intros Hs. rewrite float64_of_int_exact by lia. unfold hundredths.
  pose proof (round_half_even_near (size * 100) (2 ^ 20) ltac:(lia)). lia.
Qed.

Lemma fileDescription_shape (size N : Z) :
  fileDescription size N
  = "Size: " +:+ fmt_d (hundredths (float64_of_int size) / 100) +:+ "."
    +:+ fmt_d (hundredths (float64_of_int size) mod 100 / 10)
    +:+ fmt_d (hundredths (float64_of_int size) mod 10)
    +:+ " MB - Total uploads: " +:+ fmt_d N.
Proof.
  unfold fileDescription, fmt_2f_MB. cbn zeta. by rewrite !append_assoc.
Qed.

(** ** The preview handler *)

Lemma Contains_concat_at (k : nat) (mid l : list string) :
  take (length mid) (drop k l) = mid ->
  Contains (String.concat EmptyString l) (String.concat EmptyString mid) = true.
Proof.
  intros Hmid.
  rewrite <- (take_drop k l), <- (take_drop (length mid) (drop k l)), Hmid.
  apply Contains_concat.
Qed.

(** Looks for the pieces [mid] in the list of pieces of the page, from
    position [k] on, for at most [fuel] positions. *)
Ltac find_pieces k fuel :=
  lazymatch fuel with
  | O => fail "pieces not found"
  | S ?fuel' =>
      first [ apply (Contains_concat_at k); reflexivity
            | find_pieces (S k) fuel' ]
  end.

Lemma page_has_title (t d i u i' f : string) :
  Contains (page_html t d i u i' f) (title_tag t) = true.
Proof.
  unfold page_html, page_pieces.
  change (title_tag t) with (String.concat EmptyString ["<title>"; t; "</title>"]).
  find_pieces 0%nat 20%nat.
Qed.

Lemma page_has_meta_property (t d i u i' f : string) :
  Contains (page_html t d i u i' f) (meta_property "og:title" t) = true
  /\ Contains (page_html t d i u i' f) (meta_property "og:description" d) = true
  /\ Contains (page_html t d i u i' f) (meta_property "og:image" i) = true
  /\ Contains (page_html t d i u i' f) (meta_property "og:url" u) = true.
Proof.
  unfold page_html, page_pieces. repeat split.
  all: match goal with
       | |- Contains _ (meta_property ?n ?v) = true =>
           change (meta_property n v)
             with (String.concat EmptyString
                     ["<meta property="; dq; n; dq; " content="; dq; v; dq; ">"])
       end; find_pieces 0%nat 100%nat.
Qed.

Lemma page_has_meta_name (t d i u i' f : string) :
  Contains (page_html t d i u i' f) (meta_name "twitter:title" t) = true
  /\ Contains (page_html t d i u i' f) (meta_name "twitter:description" d) = true
  /\ Contains (page_html t d i u i' f) (meta_name "twitter:image" i) = true.
Proof.
  unfold page_html, page_pieces. repeat split.
  all: match goal with
       | |- Contains _ (meta_name ?n ?v) = true =>
           change (meta_name n v)
             with (String.concat EmptyString
                     ["<meta name="; dq; n; dq; " content="; dq; v; dq; ">"])
       end; find_pieces 0%nat 160%nat.
Qed.

Lemma page_has_img (t d i u i' f : string) :
  Contains (page_html t d i u i' f) (img_tag i' f) = true.
Proof.
  unfold page_html, page_pieces.
  change (img_tag i' f)
    with (String.concat EmptyString
            ["<img src="; dq; i'; dq; " alt="; dq; f; dq; ">"]).
  find_pieces 0%nat 200%nat.
Qed.

Lemma countFiles_total (f : filesys) :
  match countFiles f baseDir with inr n => n | inl _ => 0%Z end = total_uploads f.
Proof.
  unfold countFiles, os_ReadDir, total_uploads, storage_entries.
  destruct (lookup_path f baseDir) as [e|[d|es]]; try done.
  by rewrite length_map_to_list.
Qed.

(** The listing fails exactly when the storage root is not a directory. *)
Lemma ReadDir_fails (f : filesys) :
  (exists e, os_ReadDir f baseDir = inl e) <-> storage_entries f = None.
Proof.
  unfold os_ReadDir, storage_entries.
  destruct (lookup_path f baseDir) as [e|[d|es]]; split; try done; eauto.
  all: by intros [e' ?].
Qed.

Section Preview.

Variable P : platform.

Lemma serveImageHTML_missing (r : request) (w : world) (e : errno) :
  stored (fs w) (TrimPrefix (URL_Path r) "/f/") = inl e ->
  serveImageHTML P r w = http_NotFound.
Proof.
  unfold stored, serveImageHTML, os_Stat. intros ->. by destruct e.
Qed.

Lemma serveImageHTML_found (r : request) (w : world) (n : node) :
  stored (fs w) (TrimPrefix (URL_Path r) "/f/") = inr n ->
  serveImageHTML P r w
  = preview_ok (TrimPrefix (URL_Path r) "/f/") (Size (info_of P n))
      (total_uploads (fs w)).
Proof.
  unfold stored, serveImageHTML, os_Stat. intros ->. cbn [IsNotExist].
  by rewrite countFiles_total.
Qed.


(** C7. For a name that denotes a stored file, the page has the file name as
    its title, the description "Size: X.XX MB - Total uploads: N" with the
    size in megabytes rounded to two decimals, og:image and twitter:image meta
    tags whose content is BASE_URL/files/name, and an img tag with that URL as
    its src. *)
Theorem preview_page (r : request) (w : world) (data : list byte) :
  let filename := TrimPrefix (URL_Path r) "/f/" in
  let size := Z.of_nat (length data) in
  let url := BASE_URL +:+ "/files/" +:+ filename in
  stored (fs w) filename = inr (File data) ->
  exists html h N,
    content (serveImageHTML P r w) = Text html
    /\ status (serveImageHTML P r w) = 200%Z
    /\ Contains html (title_tag filename) = true
    /\ Contains html (meta_property "og:description"
         ("Size: " +:+ fmt_d (h / 100) +:+ "." +:+ fmt_d (h mod 100 / 10)
          +:+ fmt_d (h mod 10) +:+ " MB - Total uploads: " +:+ fmt_d N)) = true
    /\ Contains html (meta_name "twitter:description"
         ("Size: " +:+ fmt_d (h / 100) +:+ "." +:+ fmt_d (h mod 100 / 10)
          +:+ fmt_d (h mod 10) +:+ " MB - Total uploads: " +:+ fmt_d N)) = true
    /\ Contains html (meta_property "og:image" url) = true
    /\ Contains html (meta_name "twitter:image" url) = true
    /\ Contains html (img_tag url filename) = true
    /\ String.length (fmt_d (h mod 100 / 10)) = 1%nat
    /\ String.length (fmt_d (h mod 10)) = 1%nat
    /\ h = hundredths (float64_of_int size)
    /\ N = total_uploads (fs w)
    /\ ((size < 2 ^ 53)%Z ->
        (2 * Z.abs (h * 2 ^ 20 - 100 * size) <= 2 ^ 20)%Z).
Proof.
  intros filename size url Hst.
  rewrite (serveImageHTML_found _ _ _ Hst). fold filename.
  cbn [info_of Size]. fold size.
  unfold preview_ok. cbn [content status]. fold url.
  rewrite fileDescription_shape.
  set (h := hundredths (float64_of_int size)).
  set (N := total_uploads (fs w)).
  set (d := "Size: " +:+ fmt_d (h / 100) +:+ "." +:+ fmt_d (h mod 100 / 10)
            +:+ fmt_d (h mod 10) +:+ " MB - Total uploads: " +:+ fmt_d N).
  set (u := BASE_URL +:+ "/f/" +:+ filename).
  exists (page_html filename d url u url filename), h, N.
  pose proof (page_has_meta_property filename d url u url filename)
    as (_ & Hd1 & Hi1 & _).
  pose proof (page_has_meta_name filename d url u url filename)
    as (_ & Hd2 & Hi2).
  split; [reflexivity|]. split; [reflexivity|].
  split; [apply page_has_title|].
  split; [exact Hd1|]. split; [exact Hd2|].
  split; [exact Hi1|]. split; [exact Hi2|].
  split; [apply page_has_img|].
  split; [apply fmt_d_digit, tens_digit|].
  split; [apply fmt_d_digit, ones_digit|].
  split; [reflexivity|]. split; [reflexivity|].
  intros Hsz. apply hundredths_near. lia.
Qed.

(** C8. The count on the page is the number of entries of the storage root,
    directories and regular files alike, taken from the file system of the
    request; when the root cannot be listed the count is 0 and the answer is
    still 200. *)
Theorem preview_total_uploads (r : request) (w : world) (n : node) :
  let filename := TrimPrefix (URL_Path r) "/f/" in
  stored (fs w) filename = inr n ->
  exists N,
    serveImageHTML P r w = preview_ok filename (Size (info_of P n)) N
    /\ status (serveImageHTML P r w) = 200%Z
    /\ (forall es, storage_entries (fs w) = Some es ->
          N = Z.of_nat (size es)
          /\ size es
             = (size (filter (fun kv => is_file kv.2 = true) es)
                + size (filter (fun kv => ~ is_file kv.2 = true) es))%nat)
    /\ (forall e, os_ReadDir (fs w) baseDir = inl e -> N = 0%Z).
Proof.
  intros filename Hst. exists (total_uploads (fs w)).
  rewrite (serveImageHTML_found _ _ _ Hst). fold filename.
  split; [done|]. split; [done|]. split.
  - intros es Hes. unfold total_uploads. rewrite Hes. split; [done|].
    rewrite <- map_size_disj_union by apply map_disjoint_filter_complement.
    by rewrite map_filter_union_complement.
  - intros e He. unfold total_uploads.
    assert (Hnone : storage_entries (fs w) = None) by (apply ReadDir_fails; eauto).
    by rewrite Hnone.
Qed.

(** C10. For the path "/f/" the name is empty and the joined path is the
    storage root itself: the answer is 200 whenever something stands at the
    root (for a directory, its preview page with an empty title), and 404 only
    when nothing does. *)
Theorem preview_empty_name (r : request) (w : world) :
  URL_Path r = "/f/" ->
  TrimPrefix (URL_Path r) "/f/" = EmptyString
  /\ Join [baseDir; EmptyString] = "files"
  /\ stored (fs w) EmptyString = lookup_path (fs w) baseDir
  /\ (forall es, storage_entries (fs w) = Some es ->
        serveImageHTML P r w
        = preview_ok EmptyString (dir_size P es) (Z.of_nat (size es)))
  /\ (status (serveImageHTML P r w) = 200%Z
      <-> exists n, lookup_path (fs w) baseDir = inr n)
  /\ (status (serveImageHTML P r w) = 404%Z
      <-> exists e, lookup_path (fs w) baseDir = inl e).
Proof.
  intros Hpath.
  assert (Hname : TrimPrefix (URL_Path r) "/f/" = EmptyString) by (by rewrite Hpath).
  assert (Hst : stored (fs w) EmptyString = lookup_path (fs w) baseDir).
  { unfold stored. change (Join [baseDir; EmptyString]) with "files".
    unfold lookup_path. rewrite !decide_False by done.
    by rewrite resolve_files, resolve_baseDir. }
  split; [done|]. split; [reflexivity|]. split; [done|]. split; [|split].
  - intros es Hes. unfold storage_entries in Hes.
    destruct (lookup_path (fs w) baseDir) as [e|[d|es0]] eqn:Hl; try done.
    injection Hes as ->.
    rewrite (serveImageHTML_found r w (Dir es)) by (by rewrite Hname, Hst).
    rewrite Hname. cbn [info_of Size]. unfold total_uploads, storage_entries.
    by rewrite Hl.
  - destruct (lookup_path (fs w) baseDir) as [e|n] eqn:Hl.
    + rewrite (serveImageHTML_missing r w e) by (by rewrite Hname, Hst).
      split; [done | by intros [n ?]].
    + rewrite (serveImageHTML_found r w n) by (by rewrite Hname, Hst).
      split; [eauto | done].
  - destruct (lookup_path (fs w) baseDir) as [e|n] eqn:Hl.
    + rewrite (serveImageHTML_missing r w e) by (by rewrite Hname, Hst).
      split; [eauto | done].
    + rewrite (serveImageHTML_found r w n) by (by rewrite Hname, Hst).
      split; [done | by intros [e ?]].
Qed.

End Preview.


Lemma preview_page_witness :
  stored (fs uploaded_world) "aaaaaa.png" = inr (File ten_bytes)
  /\ exists html,
       content (serveImageHTML sample_platform (get "/f/aaaaaa.png") uploaded_world)
       = Text html
       /\ Contains html (title_tag "aaaaaa.png") = true
       /\ Contains html
            (meta_property "og:description" "Size: 0.00 MB - Total uploads: 1")
          = true
       /\ Contains html
            (meta_property "og:image" "https://i.kuuichi.xyz/files/aaaaaa.png")
          = true
       /\ Contains html
            (meta_name "twitter:image" "https://i.kuuichi.xyz/files/aaaaaa.png")
          = true
       /\ Contains html
            (img_tag "https://i.kuuichi.xyz/files/aaaaaa.png" "aaaaaa.png")
          = true.
Proof.
  assert (Hst : stored (fs uploaded_world) "aaaaaa.png" = inr (File ten_bytes))
    by (vm_compute; reflexivity).
  split; [exact Hst|].
  pose proof (preview_page sample_platform (get "/f/aaaaaa.png") uploaded_world
                ten_bytes) as H.
  cbv zeta in H. destruct (H Hst)
    as (html & h & N & Hc & _ & Ht & Hd & _ & Hi & Hti & Himg & _ & _ & Hh & HN & _).
  vm_compute in Hh. vm_compute in HN. subst h N.
  exists html. repeat split; assumption.
Defined.

Lemma preview_total_uploads_witness :
  stored (fs blocked_world) EmptyString = inr (File [x01])
  /\ os_ReadDir (fs blocked_world) baseDir = inl ENOTDIR
  /\ serveImageHTML sample_platform (get "/f/") blocked_world
     = preview_ok EmptyString 1 0
  /\ status (serveImageHTML sample_platform (get "/f/") blocked_world) = 200%Z.
Proof.
  assert (Hst : stored (fs blocked_world) EmptyString = inr (File [x01]))
    by (vm_compute; reflexivity).
  assert (Hrd : os_ReadDir (fs blocked_world) baseDir = inl ENOTDIR)
    by (vm_compute; reflexivity).
  pose proof (preview_total_uploads sample_platform (get "/f/") blocked_world
                (File [x01])) as H.
  cbv zeta in H. destruct (H Hst) as (N & Heq & Hok & _ & Hfail).
  rewrite (Hfail _ Hrd) in Heq. repeat split; assumption.
Defined.

Lemma preview_empty_name_witness :
  URL_Path (get "/f/") = "/f/"
  /\ stored (fs uploaded_world) EmptyString = lookup_path (fs uploaded_world) baseDir
  /\ serveImageHTML sample_platform (get "/f/") uploaded_world
     = preview_ok EmptyString 4096 1
  /\ status (serveImageHTML sample_platform (get "/f/") uploaded_world) = 200%Z.
Proof.
  destruct (preview_empty_name sample_platform (get "/f/") uploaded_world eq_refl)
    as (_ & _ & Hst & Hdir & Hok & _).
  assert (Hes : storage_entries (fs uploaded_world)
                = Some {[ "aaaaaa.png" := File ten_bytes ]})
    by (vm_compute; reflexivity).
  split; [reflexivity|]. split; [exact Hst|]. split.
  - rewrite (Hdir _ Hes). vm_compute. reflexivity.
  - apply Hok. exists (Dir {[ "aaaaaa.png" := File ten_bytes ]}).
    vm_compute. reflexivity.
Defined.

(** ** The scenarios of the specification *)

(** A ten-byte [pic.PNG] is stored as [aaaaaa.png] (the entropy source gives
    six zero bytes) and the reply names both URLs. *)
Example scenario_upload :
  FileUploadHandler sample_platform (post "pic.PNG" ten_bytes) None fresh_world
  = (upload_ok "aaaaaa.png", uploaded_world).
Proof. vm_compute. reflexivity. Qed.

Example scenario_urls :
  content (upload_ok "aaaaaa.png")
  = Json {[ "imageUrl" := "https://i.kuuichi.xyz/f/aaaaaa.png";
            "rawUrl" := "https://i.kuuichi.xyz/files/aaaaaa.png" ]}.
Proof. reflexivity. Qed.

Example scenario_raw_fetch :
  StaticFileHandler (fs uploaded_world) "/files/aaaaaa.png" = ServeContent ten_bytes.
Proof. vm_compute. reflexivity. Qed.

Example scenario_missing :
  status (serveImageHTML sample_platform (get "/f/zzzzzz.png") uploaded_world) = 404%Z
  /\ StaticFileHandler (fs uploaded_world) "/files/zzzzzz.png" = StaticNotFound.
Proof. split; vm_compute; reflexivity. Qed.

Example scenario_txt_rejected :
  FileUploadHandler sample_platform (post "notes.txt" ten_bytes) None uploaded_world
  = (http_Error "Invalid file type" StatusBadRequest, uploaded_world).
Proof. vm_compute. reflexivity. Qed.

(** A regular file where the storage directory should be: the upload ends in
    "Could not create directory", the preview of a name below it in 404 by
    the second [Stat]. *)
Example scenario_blocked :
  FileUploadHandler sample_platform (post "pic.png" ten_bytes) None blocked_world
  = (http_Error "Could not create directory" StatusInternalServerError, blocked_world)
  /\ os_Stat sample_platform (fs blocked_world) (Join [baseDir; "a.png"]) = inl ENOTDIR
  /\ serveImageHTML sample_platform (get "/f/a.png") blocked_world = http_NotFound.
Proof. repeat split; vm_compute; reflexivity. Qed.

(** Path functions on the inputs the tests of the library document. *)
Example Ext_examples :
  Ext "pic.PNG" = ".PNG" /\ Ext "a.b/c" = EmptyString
  /\ Ext "a.b/c.tar.gz" = ".gz" /\ Ext "abc." = ".".
Proof. repeat split. Qed.

Example Clean_examples :
  Clean "./files/abc.png" = "files/abc.png" /\ Clean "./files/" = "files"
  /\ Clean "./files/../../etc/passwd" = "../etc/passwd"
  /\ Clean EmptyString = "." /\ Clean "/../a//b/./c/.." = "/a/b"
  /\ Clean "a/.." = "." /\ Clean "/" = "/".
Proof. repeat split. Qed.

Example fmt_examples :
  fmt_d 0 = "0" /\ fmt_d 1234 = "1234"
  /\ fmt_2f_MB (float64_of_int 10) = "0.00"
  /\ fmt_2f_MB (float64_of_int 131072) = "0.12"
  /\ fmt_2f_MB (float64_of_int 393216) = "0.38"
  /\ fmt_2f_MB (float64_of_int 1572864) = "1.50"
  /\ fmt_2f_MB (float64_of_int 12345678901) = "11773.76"
  /\ float64_of_int (2 ^ 53 + 1) = (2 ^ 53)%Z
  /\ float64_of_int (2 ^ 53 + 3) = (2 ^ 53 + 4)%Z.
Proof. repeat split. Qed.

(** * Further properties of the code *)

(** ** What the file system operations leave alone *)

(** [MkdirAll] only adds empty directories: the regular files are the same
    before and after. *)
Lemma mkdir_all_files (p : list string) (n n' : node) :
  mkdir_all n p = inr n' ->
  forall q d, walk n' q = inr (File d) <-> walk n q = inr (File d).
Proof.
  revert n n'. induction p as [|c p IH]; intros [data|es] n'; simpl; try done.
  - by intros [= <-].
  - destruct (mkdir_all (default (Dir ∅) (es !! c)) p) as [e|child] eqn:Hm; [done|].
    intros [= <-] [|x q] d; [done|]. simpl.
    destruct (decide (x = c)) as [->|Hx].
    + rewrite lookup_insert_eq, (IH _ _ Hm).
      destruct (es !! c) as [n0|]; simpl; [done|].
      destruct q as [|y q]; simpl; [done|]. by rewrite lookup_empty.
    + by rewrite lookup_insert_ne.
Qed.

(** Writing the file at [p] changes no other regular file. *)
Lemma put_file_files (p : list string) (data : list byte) (n n' : node) :
  put_file n p data = inr n' ->
  forall q d, q <> p -> walk n' q = inr (File d) <-> walk n q = inr (File d).
Proof.
  revert n n'. induction p as [|c p IH]; intros [d0|es] n'; try done.
  cbn [put_file]. destruct p as [|c' p].
  - destruct (es !! c) as [[d1|sub]|] eqn:Hc; try done;
      intros [= <-] [|x q] d Hq; try done; simpl;
      (destruct (decide (x = c)) as [->|Hx];
       [rewrite lookup_insert_eq, ?Hc; destruct q; [done | by simpl]
       | by rewrite lookup_insert_ne]).
  - destruct (es !! c) as [child|] eqn:Hc; [|done].
    destruct (put_file child (c' :: p) data) as [e|child'] eqn:Hp; [done|].
    intros [= <-] [|x q] d Hq; [done|]. simpl.
    destruct (decide (x = c)) as [->|Hx].
    + rewrite lookup_insert_eq, Hc. apply (IH _ _ Hp). congruence.
    + by rewrite lookup_insert_ne.
Qed.

Lemma os_MkdirAll_files (f f1 : filesys) (path : string) :
  os_MkdirAll f path = inr f1 ->
  fs_cwd f1 = fs_cwd f
  /\ forall q d, walk (fs_root f1) q = inr (File d) <-> walk (fs_root f) q = inr (File d).
Proof.
  unfold os_MkdirAll. case_decide; [done|].
  destruct (mkdir_all _ _) as [e|root1] eqn:Hm; [done|]. intros [= <-].
  split; [done|]. apply (mkdir_all_files _ _ _ Hm).
Qed.

Lemma write_path_files (f f' : filesys) (path : string) (data : list byte) :
  write_path f path data = inr f' ->
  fs_cwd f' = fs_cwd f
  /\ forall q d, q <> resolve (fs_cwd f) path ->
       walk (fs_root f') q = inr (File d) <-> walk (fs_root f) q = inr (File d).
Proof.
  unfold write_path. case_decide; [done|].
  destruct (put_file _ _ _) as [e|root1] eqn:Hp; [done|]. intros [= <-].
  split; [done|]. apply (put_file_files _ _ _ _ Hp).
Qed.

(** ** More on the upload handler *)

(** Once the storage directory is made and the file is opened, any content
    can be written to it, and the directory then holds that file beside the
    entries it had. *)
Lemma store_generated (f fs1 fs2 : filesys) (name : string) :
  plain_name name ->
  os_MkdirAll f baseDir = inr fs1 ->
  os_Create fs1 ("files/" +:+ name) = inr fs2 ->
  (forall sub, default ∅ (storage_entries f) !! name <> Some (Dir sub))
  /\ forall data, exists fs3,
       write_path fs2 ("files/" +:+ name) data = inr fs3
       /\ fs_cwd fs3 = fs_cwd f
       /\ storage_entries fs3
          = Some (<[name := File data]> (default ∅ (storage_entries f))).
Proof.
  intros Hp Hmk Hcr.
  destruct (MkdirAll_storage _ _ Hmk) as [Hcwd1 Hes1].
  destruct (write_path_stored _ _ _ _ Hp Hcr) as (es & Hes & Hno & Hcwd2 & Hes2).
  rewrite Hes1 in Hes. injection Hes as <-. split; [done|]. intros data.
  assert (Hno2 : forall sub,
            <[name := File []]> (default ∅ (storage_entries f)) !! name
            <> Some (Dir sub)) by (intros sub; by rewrite lookup_insert_eq).
  destruct (write_path_stored_ok fs2 name data _ Hp Hes2 Hno2) as [fs3 Hw3].
  destruct (write_path_stored _ _ _ _ Hp Hw3) as (es' & Hes' & _ & Hcwd3 & Hes3).
  rewrite Hes2 in Hes'. injection Hes' as <-. rewrite insert_insert_eq in Hes3.
  exists fs3. repeat split; [done | congruence | done].
Qed.

Section UploadRuns.

Variable P : platform.

(** A successful run, with what the later statements need of it. *)
Lemma upload_ok_run (r : request) (fault : option nat) (w : world) :
  status (FileUploadHandler P r fault w).1 = StatusOK ->
  exists Filename payload rnd rest name,
    FormFile r = Some (Filename, payload)
    /\ RandomString (entropy w) 6 = Some (rnd, rest)
    /\ name = rnd +:+ ToLower (unicode_lower P) (Ext Filename)
    /\ plain_name name
    /\ name <> "index.html"
    /\ (forall sub, default ∅ (storage_entries (fs w)) !! name <> Some (Dir sub))
    /\ (FileUploadHandler P r fault w).1 = upload_ok name
    /\ entropy (FileUploadHandler P r fault w).2 = rest
    /\ fs_cwd (fs (FileUploadHandler P r fault w).2) = fs_cwd (fs w)
    /\ storage_entries (fs (FileUploadHandler P r fault w).2)
       = Some (<[name := File payload]> (default ∅ (storage_entries (fs w)))).
Proof.
  intros Hok.
  destruct (upload_ok_inv P r fault w Hok)
    as (Filename & payload & rnd & rest & fs1 & fs2 & fs3 & H).
  cbn zeta in H.
  destruct H as (_ & HF & Hmk & Hgate & HR & Hcr & _ & Hcp & ->).
  destruct (RandomString_Some _ _ _ _ HR) as (Hlen & Hal & _).
  pose proof (generated_name_plain _ _ Hlen Hal Hgate) as Hp.
  pose proof (generated_name_not_index rnd
                (ToLower (unicode_lower P) (Ext Filename)) Hlen Hal) as Hidx.
  set (name := rnd +:+ ToLower (unicode_lower P) (Ext Filename)) in *.
  rewrite (Join_baseDir_plain _ Hp) in Hcr, Hcp.
  destruct (store_generated _ _ _ _ Hp Hmk Hcr) as [Hno Hwr].
  destruct (Hwr payload) as (fs3' & Hw3 & Hcwd & Hes3).
  unfold io_Copy in Hcp. rewrite Hw3 in Hcp. injection Hcp as ->.
  exists Filename, payload, rnd, rest, name. cbn [fst snd fs entropy].
  do 9 (split; [first [assumption | reflexivity]|]). assumption.
Qed.

(** X1. Upload, then preview. After a successful upload the preview handler
    answers the path of imageUrl with 200 and the page of the stored file:
    its size is the length of the payload and its count the number of entries
    the storage directory now has. *)
Theorem upload_then_preview (r : request) (fault : option nat) (w : world) :
  status (FileUploadHandler P r fault w).1 = StatusOK ->
  exists Filename payload name,
    FormFile r = Some (Filename, payload)
    /\ (FileUploadHandler P r fault w).1 = upload_ok name
    /\ forall r', URL_Path r' = "/f/" +:+ name ->
         serveImageHTML P r' (FileUploadHandler P r fault w).2
         = preview_ok name (Z.of_nat (length payload))
             (Z.of_nat (size (<[name := File payload]>
                                (default ∅ (storage_entries (fs w)))))).
Proof.
  intros Hok.
  destruct (upload_ok_run r fault w Hok)
    as (Filename & payload & rnd & rest & name & HF & _ & _ & Hp & _ & _ & Hresp
        & _ & _ & Hes).
  exists Filename, payload, name. split; [done|]. split; [done|].
  intros r' Hr'.
  assert (Hname : TrimPrefix (URL_Path r') "/f/" = name).
  { rewrite Hr'. unfold TrimPrefix. by rewrite drop_prefix_append. }
  rewrite (serveImageHTML_found P r' _ (File payload)).
  - rewrite Hname. unfold total_uploads. by rewrite Hes.
  - rewrite Hname, (stored_lookup _ _ _ Hp Hes). by rewrite lookup_insert_eq.
Qed.

(** X2. The count after an upload. A successful upload raises the count of the
    preview page by one when the generated name was free, and leaves it as it
    was when the name was taken. *)
Theorem upload_count (r : request) (fault : option nat) (w : world) :
  status (FileUploadHandler P r fault w).1 = StatusOK ->
  exists name,
    (FileUploadHandler P r fault w).1 = upload_ok name
    /\ (default ∅ (storage_entries (fs w)) !! name = None ->
        total_uploads (fs (FileUploadHandler P r fault w).2)
        = (total_uploads (fs w) + 1)%Z)
    /\ (is_Some (default ∅ (storage_entries (fs w)) !! name) ->
        total_uploads (fs (FileUploadHandler P r fault w).2)
        = total_uploads (fs w)).
Proof.
  intros Hok.
  destruct (upload_ok_run r fault w Hok)
    as (Filename & payload & rnd & rest & name & _ & _ & _ & _ & _ & _ & Hresp
        & _ & _ & Hes).
  exists name. split; [done|].
  assert (Hbefore : total_uploads (fs w)
                    = Z.of_nat (size (default ∅ (storage_entries (fs w))))).
  { unfold total_uploads. by destruct (storage_entries (fs w)). }
  unfold total_uploads at 1 3. rewrite Hes, Hbefore, map_size_insert. split.
  - intros ->. lia.
  - intros [n0 ->]. done.
Qed.

(** X3. Two uploads. When two uploads in a row both succeed, the file of the
    second request is stored under the name of the second reply with the
    payload of the second request, and the raw route serves it; the file of
    the first request is still stored and served with the payload of the
    first request unless both got the same name, and then it holds the
    payload of the second (the last writer wins). *)
Theorem upload_twice (r1 r2 : request) (fault1 fault2 : option nat) (w : world) :
  let w1 := (FileUploadHandler P r1 fault1 w).2 in
  let w2 := (FileUploadHandler P r2 fault2 w1).2 in
  status (FileUploadHandler P r1 fault1 w).1 = StatusOK ->
  status (FileUploadHandler P r2 fault2 w1).1 = StatusOK ->
  exists Filename1 payload1 rnd1 rest1 Filename2 payload2 rnd2 rest2,
    let name1 := rnd1 +:+ ToLower (unicode_lower P) (Ext Filename1) in
    let name2 := rnd2 +:+ ToLower (unicode_lower P) (Ext Filename2) in
    FormFile r1 = Some (Filename1, payload1)
    /\ FormFile r2 = Some (Filename2, payload2)
    /\ RandomString (entropy w) 6 = Some (rnd1, rest1)
    /\ RandomString rest1 6 = Some (rnd2, rest2)
    /\ (FileUploadHandler P r1 fault1 w).1 = upload_ok name1
    /\ (FileUploadHandler P r2 fault2 w1).1 = upload_ok name2
    /\ stored (fs w1) name1 = inr (File payload1)
    /\ stored (fs w2) name2 = inr (File payload2)
    /\ StaticFileHandler (fs w2) ("/files/" +:+ name2) = ServeContent payload2
    /\ (name1 <> name2 ->
        stored (fs w2) name1 = inr (File payload1)
        /\ StaticFileHandler (fs w2) ("/files/" +:+ name1) = ServeContent payload1)
    /\ (name1 = name2 -> stored (fs w2) name1 = inr (File payload2)).
Proof.
  intros w1 w2 Hok1 Hok2.
  destruct (upload_ok_run r1 fault1 w Hok1)
    as (F1 & payload1 & rnd1 & rest1 & name1 & HF1 & HR1 & Hn1 & Hp1 & Hi1 & _
        & Hresp1 & Hent1 & _ & Hes1).
  destruct (upload_ok_run r2 fault2 w1 Hok2)
    as (F2 & payload2 & rnd2 & rest2 & name2 & HF2 & HR2 & Hn2 & Hp2 & Hi2 & _
        & Hresp2 & _ & _ & Hes2).
  fold w1 in Hes1, Hent1. fold w2 in Hes2. rewrite Hent1 in HR2.
  rewrite Hes1 in Hes2. cbn [default from_option id] in Hes2.
  assert (Hst1 : stored (fs w1) name1 = inr (File payload1)).
  { rewrite (stored_lookup _ _ _ Hp1 Hes1). by rewrite lookup_insert_eq. }
  assert (Hst2 : stored (fs w2) name2 = inr (File payload2)).
  { rewrite (stored_lookup _ _ _ Hp2 Hes2). by rewrite lookup_insert_eq. }
  exists F1, payload1, rnd1, rest1, F2, payload2, rnd2, rest2. cbn zeta.
  rewrite <- Hn1, <- Hn2.
  do 8 (split; [done|]).
  split; [by apply static_fetch|]. split.
  - intros Hne.
    assert (Hst : stored (fs w2) name1 = inr (File payload1)).
    { rewrite (stored_lookup _ _ _ Hp1 Hes2).
      rewrite lookup_insert_ne by done. by rewrite lookup_insert_eq. }
    split; [done | by apply static_fetch].
  - by intros ->.
Qed.

End UploadRuns.

Section UploadFailures.

Variable P : platform.

(** The three ways a run of the upload handler can end: before anything was
    touched; after [MkdirAll] but with no file opened; or with the file
    written, wholly (200) or up to the fault of the copy (500). *)
Lemma upload_cases (r : request) (fault : option nat) (w : world) :
  ((FileUploadHandler P r fault w).2 = w
   /\ status (FileUploadHandler P r fault w).1 <> StatusOK
   /\ (FileUploadHandler P r fault w).1
      <> http_Error "Error copying file" StatusInternalServerError)
  \/ (os_MkdirAll (fs w) baseDir = inr (fs (FileUploadHandler P r fault w).2)
      /\ status (FileUploadHandler P r fault w).1 <> StatusOK
      /\ (FileUploadHandler P r fault w).1
         <> http_Error "Error copying file" StatusInternalServerError)
  \/ (exists Filename payload name fs1 fs2,
        FormFile r = Some (Filename, payload)
        /\ plain_name name
        /\ os_MkdirAll (fs w) baseDir = inr fs1
        /\ os_Create fs1 ("files/" +:+ name) = inr fs2
        /\ write_path fs2 ("files/" +:+ name)
             (match fault with Some k => take k payload | None => payload end)
           = inr (fs (FileUploadHandler P r fault w).2)
        /\ (FileUploadHandler P r fault w).1
           = match fault with
             | Some _ => http_Error "Error copying file" StatusInternalServerError
             | None => upload_ok name
             end).
Proof.
  unfold FileUploadHandler.
  destruct (String.eqb (Method r) MethodPost); cbn [negb]; [|by left].
  destruct (FormFile r) as [[Filename payload]|]; [|by left].
  destruct (os_MkdirAll (fs w) baseDir) as [e|fs1] eqn:Hmk; [by left|].
  destruct (Contains allowed_literal (ToLower (unicode_lower P) (Ext Filename)))
    eqn:Hgate; cbn [negb]; [|by right; left].
  destruct (RandomString (entropy w) 6) as [[rnd rest]|] eqn:HR; [|by right; left].
  destruct (RandomString_Some _ _ _ _ HR) as (Hlen & Hal & _).
  pose proof (generated_name_plain _ _ Hlen Hal Hgate) as Hp.
  rewrite (Join_baseDir_plain _ Hp).
  destruct (os_Create fs1 _) as [e|fs2] eqn:Hcr; [by right; left|].
  destruct (store_generated _ _ _ _ Hp Hmk Hcr) as [_ Hwr].
  destruct (Hwr (match fault with Some k => take k payload | None => payload end))
    as (fs3 & Hw3 & _ & _).
  right; right. unfold io_Copy. rewrite Hw3.
  exists Filename, payload, (rnd +:+ ToLower (unicode_lower P) (Ext Filename)),
    fs1, fs2.
  by destruct fault.
Qed.

(** X4. Failures write no file. A run that does not end in 200 and whose copy
    did not break off leaves every regular file of the file system as it was,
    and the storage directory with the entries it had: the only thing it may
    have done is to make the (empty) storage directory. *)
Theorem upload_failure_no_file (r : request) (w : world) :
  status (FileUploadHandler P r None w).1 <> StatusOK ->
  default ∅ (storage_entries (fs (FileUploadHandler P r None w).2))
  = default ∅ (storage_entries (fs w))
  /\ forall q d,
       walk (fs_root (fs (FileUploadHandler P r None w).2)) q = inr (File d)
       <-> walk (fs_root (fs w)) q = inr (File d).
Proof.
  intros Hbad.
  destruct (upload_cases r None w) as [(-> & _) | [(Hmk & _) | H]].
  - done.
  - destruct (MkdirAll_storage _ _ Hmk) as [_ ->].
    by destruct (os_MkdirAll_files _ _ _ Hmk).
  - destruct H as (? & ? & name & ? & ? & _ & _ & _ & _ & _ & Hresp).
    by rewrite Hresp in Hbad.
Qed.

(** X5. A copy that breaks off. With a fault in the copy the run never ends in
    200; when it ends in "Error copying file", six random bytes were drawn,
    and the file named by them and the lowercased extension of the uploaded
    file name is left behind in the storage directory, holding the bytes of
    the payload copied before the fault. *)
Theorem upload_copy_fault (r : request) (k : nat) (w : world) :
  status (FileUploadHandler P r (Some k) w).1 <> StatusOK
  /\ ((FileUploadHandler P r (Some k) w).1
      = http_Error "Error copying file" StatusInternalServerError ->
      exists Filename payload rnd rest,
        let name := rnd +:+ ToLower (unicode_lower P) (Ext Filename) in
        FormFile r = Some (Filename, payload)
        /\ RandomString (entropy w) 6 = Some (rnd, rest)
        /\ entropy (FileUploadHandler P r (Some k) w).2 = rest
        /\ storage_entries (fs (FileUploadHandler P r (Some k) w).2)
           = Some (<[name := File (take k payload)]>
                     (default ∅ (storage_entries (fs w))))
        /\ stored (fs (FileUploadHandler P r (Some k) w).2) name
           = inr (File (take k payload))).
Proof.
  unfold FileUploadHandler.
  destruct (String.eqb (Method r) MethodPost); cbn [negb]; [|done].
  destruct (FormFile r) as [[Filename payload]|]; [|done].
  destruct (os_MkdirAll (fs w) baseDir) as [e|fs1] eqn:Hmk; [done|].
  destruct (Contains allowed_literal (ToLower (unicode_lower P) (Ext Filename)))
    eqn:Hgate; cbn [negb]; [|done].
  destruct (RandomString (entropy w) 6) as [[rnd rest]|] eqn:HR; [|done].
  destruct (RandomString_Some _ _ _ _ HR) as (Hlen & Hal & _).
  pose proof (generated_name_plain _ _ Hlen Hal Hgate) as Hp.
  rewrite (Join_baseDir_plain _ Hp).
  destruct (os_Create fs1 _) as [e|fs2] eqn:Hcr; [done|].
  destruct (store_generated _ _ _ _ Hp Hmk Hcr) as [_ Hwr].
  destruct (Hwr (take k payload)) as (fs3 & Hw3 & _ & Hes3).
  unfold io_Copy. rewrite Hw3.
  replace (bool_decide (is_Some (Some k))) with true by reflexivity.
  cbn [fst snd fs entropy]. split; [done|]. intros _.
  exists Filename, payload, rnd, rest. cbn zeta.
  do 4 (split; [done|]).
  rewrite (stored_lookup _ _ _ Hp Hes3). by rewrite lookup_insert_eq.
Qed.

(** X6. Nothing outside the storage directory. Whatever the request and the
    outcome, the working directory stays and every regular file whose path
    does not lead through the storage directory is as it was. *)
Theorem upload_frame (r : request) (fault : option nat) (w : world)
    (q : list string) (d : list byte) :
  ~ (fs_cwd (fs w) ++ ["files"]) `prefix_of` q ->
  fs_cwd (fs (FileUploadHandler P r fault w).2) = fs_cwd (fs w)
  /\ (walk (fs_root (fs (FileUploadHandler P r fault w).2)) q = inr (File d)
      <-> walk (fs_root (fs w)) q = inr (File d)).
Proof.
  intros Hq.
  destruct (upload_cases r fault w) as [(-> & _) | [(Hmk & _) | H]].
  - done.
  - destruct (os_MkdirAll_files _ _ _ Hmk) as [Hcwd Hfiles]. by rewrite Hfiles.
  - destruct H as (Filename & payload & name & fs1 & fs2 & _ & Hp & Hmk & Hcr
                   & Hw & _).
    destruct (os_MkdirAll_files _ _ _ Hmk) as [Hcwd1 Hfiles1].
    destruct (write_path_files _ _ _ _ Hcr) as [Hcwd2 Hfiles2].
    destruct (write_path_files _ _ _ _ Hw) as [Hcwd3 Hfiles3].
    split; [congruence|].
    assert (Hne : forall cwd, cwd = fs_cwd (fs w) ->
              q <> resolve cwd ("files/" +:+ name)).
    { intros cwd -> Heq. apply Hq. rewrite Heq, (resolve_stored _ _ Hp).
      by exists [name]. }
    rewrite Hfiles3 by (apply Hne; congruence).
    rewrite Hfiles2 by (apply Hne; congruence). apply Hfiles1.
Qed.

End UploadFailures.

(** ** More on RandomString *)

Lemma string_of_bytes_app (l1 l2 : list ascii) :
  string_of_bytes (l1 ++ l2) = string_of_bytes l1 +:+ string_of_bytes l2.
Proof.
  induction l1 as [|c l1 IH]; [done|].
  rewrite <- app_comm_cons. cbn [string_of_bytes]. by rewrite IH, append_cons.
Qed.

(** X7. Names are drawn in sequence. Drawing [n + m] characters is drawing
    [n] and then [m] from what is left: the strings concatenate, and the
    longer draw fails exactly when one of the two shorter ones does. *)
Theorem RandomString_add (entropy : list byte) (n m : nat) :
  RandomString entropy (n + m)
  = match RandomString entropy n with
    | None => None
    | Some (s1, rest1) =>
        match RandomString rest1 m with
        | None => None
        | Some (s2, rest2) => Some (s1 +:+ s2, rest2)
        end
    end.
Proof.
  unfold RandomString, rand_Read.
  destruct (decide (n <= length entropy)%nat) as [Hn|Hn].
  - destruct (decide (n + m <= length entropy)%nat) as [Hnm|Hnm].
    + rewrite decide_True by (rewrite length_drop; lia).
      by rewrite <- take_take_drop, map_app, string_of_bytes_app, drop_drop.
    + by rewrite decide_False by (rewrite length_drop; lia).
  - by rewrite decide_False by lia.
Qed.

(** X8. The bias of the modulo mapping. Among the 256 byte values, each of
    the first eight characters of the alphabet is hit by five and each of the
    other 54 by four; the 62 characters are pairwise distinct. *)
Theorem RandomString_bias (k : nat) :
  (k < 62)%nat ->
  length (filter (fun b : nat => b mod String.length charset = k) (seq 0 256))
  = (if (k <? 8)%nat then 5 else 4)%nat
  /\ forall j, (j < 62)%nat -> charset_at j = charset_at k -> j = k.
Proof.
  intros Hk.
  assert (Hall : forallb (fun k =>
            (length (filter (fun b : nat => b mod String.length charset = k)
                       (seq 0 256))
             =? (if (k <? 8)%nat then 5 else 4))%nat
            && forallb (fun j =>
                 implb (Ascii.eqb (charset_at j) (charset_at k)) (j =? k)%nat)
                 (seq 0 62)) (seq 0 62) = true) by (vm_compute; reflexivity).
  rewrite forallb_forall in Hall. specialize (Hall k).
  rewrite in_seq in Hall. specialize (Hall ltac:(lia)).
  apply andb_true_iff in Hall as [Hcount Hinj].
  split; [by apply Nat.eqb_eq|].
  intros j Hj Heq. rewrite forallb_forall in Hinj. specialize (Hinj j).
  rewrite in_seq in Hinj. specialize (Hinj ltac:(lia)).
  rewrite Heq, Ascii.eqb_refl in Hinj. by apply Nat.eqb_eq.
Qed.

Lemma RandomString_bias_witness :
  (3 < 62)%nat
  /\ length (filter (fun b : nat => b mod String.length charset = 3%nat) (seq 0 256))
     = 5%nat.
Proof.
  split; [lia|].
  apply (proj1 (RandomString_bias 3 ltac:(lia))).
Defined.

(** ** Paths of several names *)

Lemma split_slash_Join (names : list string) :
  names <> [] ->
  Forall plain_name names ->
  split_slash (strings_Join names "/") = names.
Proof.
  intros Hne Hall. induction Hall as [|a names Ha Hall IH]; [done|].
  destruct names as [|b names].
  - apply split_slash_plain, Ha.
  - change (strings_Join (a :: b :: names) "/")
      with (a +:+ String slash (strings_Join (b :: names) "/")).
    rewrite split_slash_append, (split_slash_plain a) by apply Ha.
    by rewrite IH.
Qed.

Lemma clean_fold_plain (rooted : bool) (names stack : list string) :
  Forall plain_name names ->
  fold_left (clean_step rooted) names stack = rev names ++ stack.
Proof.
  intros Hall. revert stack.
  induction Hall as [|a names Ha Hall IH]; intros stack; [done|].
  cbn [fold_left]. rewrite (clean_step_plain _ _ _ Ha), IH. simpl.
  by rewrite <- app_assoc.
Qed.

Lemma resolve_fold_plain (names stack : list string) :
  Forall plain_name names ->
  fold_left resolve_step names stack = rev names ++ stack.
Proof.
  intros Hall. revert stack.
  induction Hall as [|a names Ha Hall IH]; intros stack; [done|].
  cbn [fold_left]. rewrite (resolve_step_plain _ _ Ha), IH. simpl.
  by rewrite <- app_assoc.
Qed.

Lemma HasPrefix_slash_plain (a t : string) :
  plain_name a -> HasPrefix (a +:+ t) "/" = false.
Proof.
  intros (Hns & Hne & _). destruct a as [|c a]; [done|].
  cbn [all_bytes] in Hns. apply andb_true_iff in Hns as [Hc _].
  unfold not_slash in Hc. rewrite append_cons.
  change (HasPrefix (String c (a +:+ t)) "/")
    with (if Ascii.eqb slash c then true else false).
  rewrite Ascii.eqb_sym. by destruct (Ascii.eqb c slash).
Qed.

Lemma HasPrefix_slash_Join (names : list string) :
  names <> [] -> Forall plain_name names ->
  HasPrefix (strings_Join names "/") "/" = false.
Proof.
  intros Hne Hall. destruct Hall as [|a names Ha Hall]; [done|].
  destruct names as [|b names].
  - rewrite <- (append_nil_r a). by apply HasPrefix_slash_plain.
  - change (strings_Join (a :: b :: names) "/")
      with (a +:+ "/" +:+ strings_Join (b :: names) "/").
    by apply HasPrefix_slash_plain.
Qed.

(** Joining plain names onto the storage root leads below it. *)
Lemma Join_baseDir_names (names : list string) :
  names <> [] ->
  Forall plain_name names ->
  Join [baseDir; strings_Join names "/"] = strings_Join ("files" :: names) "/".
Proof.
  intros Hne Hall. unfold Join. rewrite decide_False by done. unfold Clean.
  change (strings_Join [baseDir; strings_Join names "/"] "/")
    with ("./files" +:+ String slash (strings_Join names "/")).
  replace (HasPrefix ("./files" +:+ String slash (strings_Join names "/")) "/")
    with false by reflexivity.
  rewrite split_slash_append, split_slash_Join by done.
  change (split_slash "./files") with ["."; "files"].
  cbn [app fold_left]. change (clean_step false [] ".") with (@nil string).
  rewrite (clean_step_plain _ _ _ plain_files), clean_fold_plain by done.
  rewrite rev_app_distr, rev_involutive.
  change (rev ["files"] ++ names) with ("files" :: names).
  destruct names as [|a names]; [done|].
  by rewrite decide_False.
Qed.

Lemma resolve_names (cwd names : list string) :
  names <> [] ->
  Forall plain_name names ->
  resolve cwd (strings_Join names "/") = cwd ++ names.
Proof.
  intros Hne Hall. unfold resolve.
  rewrite HasPrefix_slash_Join, split_slash_Join, resolve_fold_plain by done.
  by rewrite rev_app_distr, !rev_involutive.
Qed.

Lemma stored_names (f : filesys) (names : list string) :
  names <> [] ->
  Forall plain_name names ->
  stored f (strings_Join names "/")
  = walk (fs_root f) (fs_cwd f ++ "files" :: names).
Proof.
  intros Hne Hall. unfold stored, lookup_path.
  rewrite Join_baseDir_names by done.
  rewrite decide_False by (by destruct names).
  rewrite resolve_names; [done | done |]. constructor; [apply plain_files | done].
Qed.

(** ** More on the preview handler *)

Lemma TrimPrefix_f (name : string) : TrimPrefix ("/f/" +:+ name) "/f/" = name.
Proof. unfold TrimPrefix. by rewrite drop_prefix_append. Qed.

Section PreviewMore.

Variable P : platform.

(** X10. A path below a stored file. A request for a path that continues below
    a stored regular file is answered 404, and it is the second [Stat] that
    catches it: the error is "not a directory", which [os.IsNotExist] does not
    recognise. *)
Theorem preview_below_file (r : request) (w : world) (name sub : string)
    (data : list byte) :
  plain_name name ->
  plain_name sub ->
  stored (fs w) name = inr (File data) ->
  URL_Path r = "/f/" +:+ name +:+ "/" +:+ sub ->
  os_Stat P (fs w) (Join [baseDir; name +:+ "/" +:+ sub]) = inl ENOTDIR
  /\ IsNotExist (os_Stat P (fs w) (Join [baseDir; name +:+ "/" +:+ sub])) = false
  /\ serveImageHTML P r w = http_NotFound.
Proof.
  intros Hp Hs Hst Hpath.
  assert (Hall : Forall plain_name [name; sub]) by auto using Forall_cons, Forall_nil.
  assert (Hl : stored (fs w) (name +:+ "/" +:+ sub) = inl ENOTDIR).
  { change (name +:+ "/" +:+ sub) with (strings_Join [name; sub] "/").
    rewrite stored_names by done.
    change (fs_cwd (fs w) ++ "files" :: [name; sub])
      with (fs_cwd (fs w) ++ ["files"; name] ++ [sub]).
    rewrite app_assoc, walk_app.
    change (name) with (strings_Join [name] "/") in Hst.
    rewrite stored_names in Hst by auto using Forall_cons, Forall_nil.
    by rewrite Hst. }
  assert (HS : os_Stat P (fs w) (Join [baseDir; name +:+ "/" +:+ sub])
               = inl ENOTDIR).
  { unfold os_Stat. unfold stored in Hl. by rewrite Hl. }
  split; [done|]. split; [by rewrite HS|].
  apply (serveImageHTML_missing P r w ENOTDIR).
  by rewrite Hpath, TrimPrefix_f.
Qed.

(** X11. The preview handler reaches outside the storage directory. Called
    with a path whose name starts with a dot-dot element, it stats the file of
    that name in the working directory: it answers 200 exactly when something
    is there, and the page shows the size of that file. *)
Theorem preview_traversal (r : request) (w : world) (x : string) :
  plain_name x ->
  URL_Path r = "/f/../" +:+ x ->
  Join [baseDir; "../" +:+ x] = x
  /\ stored (fs w) ("../" +:+ x) = walk (fs_root (fs w)) (fs_cwd (fs w) ++ [x])
  /\ status (serveImageHTML P r w)
     = match walk (fs_root (fs w)) (fs_cwd (fs w) ++ [x]) with
       | inr _ => 200%Z
       | inl _ => 404%Z
       end
  /\ forall data,
       walk (fs_root (fs w)) (fs_cwd (fs w) ++ [x]) = inr (File data) ->
       serveImageHTML P r w
       = preview_ok ("../" +:+ x) (Z.of_nat (length data)) (total_uploads (fs w)).
Proof.
  intros Hp Hpath.
  assert (HJ : Join [baseDir; "../" +:+ x] = x).
  { unfold Join. rewrite decide_False by done. unfold Clean.
    change (strings_Join [baseDir; "../" +:+ x] "/")
      with ("./files/.." +:+ String slash x).
    replace (HasPrefix ("./files/.." +:+ String slash x) "/") with false
      by reflexivity.
    rewrite split_slash_append, (split_slash_plain x) by apply Hp.
    change (split_slash "./files/..") with ["."; "files"; ".."].
    cbn [app fold_left]. change (clean_step false [] ".") with (@nil string).
    rewrite (clean_step_plain _ _ _ plain_files).
    change (clean_step false ["files"] "..") with (@nil string).
    rewrite (clean_step_plain _ _ _ Hp). cbn [rev app strings_Join].
    destruct Hp as (_ & Hne & _). by rewrite decide_False. }
  assert (Hst : stored (fs w) ("../" +:+ x)
                = walk (fs_root (fs w)) (fs_cwd (fs w) ++ [x])).
  { unfold stored, lookup_path. rewrite HJ.
    rewrite decide_False by apply Hp.
    change x with (strings_Join [x] "/") at 1.
    by rewrite resolve_names by auto using Forall_cons, Forall_nil. }
  assert (Hname : TrimPrefix (URL_Path r) "/f/" = "../" +:+ x).
  { rewrite Hpath. apply (TrimPrefix_f ("../" +:+ x)). }
  split; [done|]. split; [done|]. split.
  - destruct (walk (fs_root (fs w)) (fs_cwd (fs w) ++ [x])) as [e|n] eqn:Hw.
    + by rewrite (serveImageHTML_missing P r w e) by (by rewrite Hname).
    + by rewrite (serveImageHTML_found P r w n) by (by rewrite Hname).
  - intros data Hw.
    rewrite (serveImageHTML_found P r w (File data)) by (by rewrite Hname, Hst).
    by rewrite Hname.
Qed.

End PreviewMore.

(** X12. Small files. The size line reads 0.00 MB for every file of at most
    5242 bytes, and for no larger one do the hundredths round to zero. *)
Theorem small_files_zero (size : Z) :
  (0 <= size < 2 ^ 53)%Z ->
  ((size <= 5242)%Z <-> hundredths (float64_of_int size) = 0%Z)
  /\ ((size <= 5242)%Z -> fmt_2f_MB (float64_of_int size) = "0.00").
Proof.
  intros Hs. pose proof (hundredths_near size Hs) as Hnear.
  unfold fmt_2f_MB. set (h := hundredths (float64_of_int size)) in *.
  assert (Hiff : (size <= 5242)%Z <-> h = 0%Z) by lia.
  split; [done|]. intros Hle. apply Hiff in Hle. by rewrite Hle.
Qed.

(** ** The extensions the upload handler accepts *)

Lemma HasPrefix_prefixes (s p : string) :
  HasPrefix s p = true -> p ∈ prefixes s.
Proof.
  revert s. induction p as [|a p IH]; intros s; [destruct s; left|].
  destruct s as [|b s]; [done|]. cbn [HasPrefix prefixes].
  destruct (Ascii.eqb_spec a b) as [->|]; [|done]. intros H.
  right. apply list_elem_of_fmap. exists p. split; [done | by apply IH].
Qed.

Lemma Contains_substrings (s e : string) :
  Contains s e = true -> e ∈ substrings s.
Proof.
  induction s as [|c s IH]; cbn [Contains substrings];
    rewrite orb_true_iff, elem_of_app.
  - intros [H|H]; [left; by apply HasPrefix_prefixes | done].
  - intros [H|H]; [left; by apply HasPrefix_prefixes | right; by apply IH].
Qed.

(** What [Ext] returns is empty or a dot followed by no other dot. *)
Lemma ext_scan_shape (s : string) :
  match ext_scan s with
  | (Some e, _) => ext_shape e = true
  | (None, false) => all_bytes not_dot s = true
  | (None, true) => True
  end.
Proof.
  induction s as [|c s IH]; [done|]. cbn [ext_scan].
  destruct (ext_scan s) as [[e|] sep]; [done|].
  destruct sep; [done|].
  destruct (Ascii.eqb c slash); [done|].
  destruct (Ascii.eqb c dot) eqn:Hd.
  - cbn [ext_shape]. by rewrite Hd.
  - cbn [all_bytes]. unfold not_dot at 1. by rewrite Hd.
Qed.

Lemma Ext_shape (path : string) : ext_shape (Ext path) = true.
Proof.
  unfold Ext. pose proof (ext_scan_shape path) as H.
  by destruct (ext_scan path) as [[e|] sep].
Qed.

Lemma lower_byte_dot (c : ascii) :
  Ascii.eqb (lower_byte c) dot = Ascii.eqb c dot.
Proof. by destruct c as [[] [] [] [] [] [] [] []]. Qed.

Lemma lower_shape (e : string) :
  ext_shape (map_bytes lower_byte e) = ext_shape e.
Proof.
  destruct e as [|c t]; [done|]. cbn [map_bytes ext_shape].
  rewrite lower_byte_dot. f_equal.
  induction t as [|x t IH]; [done|]. cbn [map_bytes all_bytes].
  unfold not_dot at 1 3. by rewrite lower_byte_dot, IH.
Qed.

(** X13. The accepted extensions. For a file name whose extension is ASCII,
    the upload handler lets the extension through exactly when, lowercased, it
    is empty, a lone dot, or a dot followed by a prefix of one of jpg, jpeg,
    png, gif, bmp. *)
Theorem accepted_extensions_exact (unicode : string -> string)
    (Filename : string) :
  isASCII (Ext Filename) = true ->
  Contains allowed_literal (ToLower unicode (Ext Filename)) = true
  <-> ToLower unicode (Ext Filename) ∈ accepted_extensions.
Proof.
  intros HA. unfold ToLower. rewrite HA.
  set (e := map_bytes lower_byte (Ext Filename)).
  assert (Hshape : ext_shape e = true) by (unfold e; by rewrite lower_shape, Ext_shape).
  split.
  - intros Hc. apply Contains_substrings in Hc.
    assert (Hall : forallb (fun x =>
              implb (ext_shape x)
                (bool_decide (x ∈ accepted_extensions)))
              (substrings allowed_literal) = true) by (vm_compute; reflexivity).
    rewrite forallb_forall in Hall. apply list_elem_of_In, Hall in Hc.
    rewrite Hshape in Hc. by apply bool_decide_eq_true in Hc.
  - intros Hin.
    assert (Hall : forallb (Contains allowed_literal) accepted_extensions = true)
      by (vm_compute; reflexivity).
    rewrite forallb_forall in Hall. by apply Hall, list_elem_of_In.
Qed.

Lemma accepted_extensions_exact_witness :
  isASCII (Ext "notes.JP") = true
  /\ (Contains allowed_literal (ToLower (unicode_lower sample_platform) (Ext "notes.JP"))
      = true
      <-> ToLower (unicode_lower sample_platform) (Ext "notes.JP")
          ∈ accepted_extensions).
Proof.
  split; [reflexivity|].
  apply (accepted_extensions_exact (unicode_lower sample_platform) "notes.JP").
  reflexivity.
Defined.

(** ** The further properties at concrete inputs *)

Lemma upload_then_preview_witness :
  status (FileUploadHandler sample_platform (post "pic.PNG" ten_bytes) None
            fresh_world).1 = StatusOK
  /\ exists Filename payload name,
       FormFile (post "pic.PNG" ten_bytes) = Some (Filename, payload)
       /\ (FileUploadHandler sample_platform (post "pic.PNG" ten_bytes) None
             fresh_world).1 = upload_ok name
       /\ forall r', URL_Path r' = "/f/" +:+ name ->
            serveImageHTML sample_platform r'
              (FileUploadHandler sample_platform (post "pic.PNG" ten_bytes) None
                 fresh_world).2
            = preview_ok name (Z.of_nat (length payload))
                (Z.of_nat (size (<[name := File payload]>
                                   (default ∅ (storage_entries (fs fresh_world)))))).
Proof.
  assert (Hok : status (FileUploadHandler sample_platform
                          (post "pic.PNG" ten_bytes) None fresh_world).1 = StatusOK)
    by (vm_compute; reflexivity).
  split; [exact Hok|].
  exact (upload_then_preview sample_platform _ None fresh_world Hok).
Defined.

Lemma upload_count_witness :
  status (FileUploadHandler sample_platform (post "pic.PNG" ten_bytes) None
            taken_world).1 = StatusOK
  /\ exists name,
       (FileUploadHandler sample_platform (post "pic.PNG" ten_bytes) None
          taken_world).1 = upload_ok name
       /\ (default ∅ (storage_entries (fs taken_world)) !! name = None ->
           total_uploads (fs (FileUploadHandler sample_platform
                                (post "pic.PNG" ten_bytes) None taken_world).2)
           = (total_uploads (fs taken_world) + 1)%Z)
       /\ (is_Some (default ∅ (storage_entries (fs taken_world)) !! name) ->
           total_uploads (fs (FileUploadHandler sample_platform
                                (post "pic.PNG" ten_bytes) None taken_world).2)
           = total_uploads (fs taken_world)).
Proof.
  assert (Hok : status (FileUploadHandler sample_platform
                          (post "pic.PNG" ten_bytes) None taken_world).1 = StatusOK)
    by (vm_compute; reflexivity).
  split; [exact Hok|].
  exact (upload_count sample_platform _ None taken_world Hok).
Defined.

Lemma upload_twice_witness :
  status (FileUploadHandler sample_platform (post "a.png" [x01]) None
            {| fs := empty_fs; entropy := zeros ++ zeros |}).1 = StatusOK
  /\ status (FileUploadHandler sample_platform (post "b.gif" [x02]) None
               (FileUploadHandler sample_platform (post "a.png" [x01]) None
                  {| fs := empty_fs; entropy := zeros ++ zeros |}).2).1 = StatusOK
  /\ exists Filename1 payload1 rnd1 rest1 Filename2 payload2 rnd2 rest2,
       let w := {| fs := empty_fs; entropy := zeros ++ zeros |} in
       let w1 := (FileUploadHandler sample_platform (post "a.png" [x01]) None w).2 in
       let w2 := (FileUploadHandler sample_platform (post "b.gif" [x02]) None w1).2 in
       let name1 := rnd1 +:+ ToLower (unicode_lower sample_platform) (Ext Filename1) in
       let name2 := rnd2 +:+ ToLower (unicode_lower sample_platform) (Ext Filename2) in
       FormFile (post "a.png" [x01]) = Some (Filename1, payload1)
       /\ FormFile (post "b.gif" [x02]) = Some (Filename2, payload2)
       /\ RandomString (entropy w) 6 = Some (rnd1, rest1)
       /\ RandomString rest1 6 = Some (rnd2, rest2)
       /\ (FileUploadHandler sample_platform (post "a.png" [x01]) None w).1
          = upload_ok name1
       /\ (FileUploadHandler sample_platform (post "b.gif" [x02]) None w1).1
          = upload_ok name2
       /\ stored (fs w1) name1 = inr (File payload1)
       /\ stored (fs w2) name2 = inr (File payload2)
       /\ StaticFileHandler (fs w2) ("/files/" +:+ name2) = ServeContent payload2
       /\ (name1 <> name2 ->
           stored (fs w2) name1 = inr (File payload1)
           /\ StaticFileHandler (fs w2) ("/files/" +:+ name1)
              = ServeContent payload1)
       /\ (name1 = name2 -> stored (fs w2) name1 = inr (File payload2)).
Proof.
  assert (H1 : status (FileUploadHandler sample_platform (post "a.png" [x01]) None
                         {| fs := empty_fs; entropy := zeros ++ zeros |}).1
               = StatusOK) by (vm_compute; reflexivity).
  assert (H2 : status (FileUploadHandler sample_platform (post "b.gif" [x02]) None
                         (FileUploadHandler sample_platform (post "a.png" [x01])
                            None {| fs := empty_fs; entropy := zeros ++ zeros |}).2).1
               = StatusOK) by (vm_compute; reflexivity).
  split; [exact H1|]. split; [exact H2|].
  exact (upload_twice sample_platform (post "a.png" [x01]) (post "b.gif" [x02])
           None None {| fs := empty_fs; entropy := zeros ++ zeros |} H1 H2).
Defined.

Lemma upload_failure_no_file_witness :
  status (FileUploadHandler sample_platform (post "notes.txt" ten_bytes) None
            fresh_world).1 <> StatusOK
  /\ default ∅ (storage_entries
                  (fs (FileUploadHandler sample_platform
                         (post "notes.txt" ten_bytes) None fresh_world).2))
     = default ∅ (storage_entries (fs fresh_world))
  /\ storage_entries
       (fs (FileUploadHandler sample_platform (post "notes.txt" ten_bytes) None
              fresh_world).2) = Some ∅
  /\ storage_entries (fs fresh_world) = None.
Proof.
  assert (Hbad : status (FileUploadHandler sample_platform
                           (post "notes.txt" ten_bytes) None fresh_world).1
                 <> StatusOK) by (vm_compute; discriminate).
  split; [exact Hbad|].
  split; [exact (proj1 (upload_failure_no_file sample_platform _ fresh_world Hbad))|].
  split; vm_compute; reflexivity.
Defined.

Lemma upload_frame_witness :
  ~ (fs_cwd (fs source_world) ++ ["files"]) `prefix_of` ["main.go"]
  /\ (walk (fs_root (fs (FileUploadHandler sample_platform
                           (post "main.go.png" ten_bytes) None source_world).2))
        ["main.go"] = inr (File [x70; x61; x63])
      <-> walk (fs_root (fs source_world)) ["main.go"]
          = inr (File [x70; x61; x63])).
Proof.
  assert (Hq : ~ (fs_cwd (fs source_world) ++ ["files"]) `prefix_of` ["main.go"])
    by (intros [k Hk]; discriminate Hk).
  split; [exact Hq|].
  exact (proj2 (upload_frame sample_platform (post "main.go.png" ten_bytes) None
                  source_world ["main.go"] [x70; x61; x63] Hq)).
Defined.

Lemma upload_rejected_extension_witness :
  (FileUploadHandler sample_platform (post "notes.txt" ten_bytes) None fresh_world).1
  = http_Error "Invalid file type" StatusBadRequest
  /\ storage_entries (fs fresh_world) = None
  /\ storage_entries
       (fs (FileUploadHandler sample_platform (post "notes.txt" ten_bytes) None
              fresh_world).2)
     = Some (default ∅ (storage_entries (fs fresh_world))).
Proof.
  destruct (upload_rejected_extension sample_platform (post "notes.txt" ten_bytes)
              None fresh_world "notes.txt" ten_bytes
              {| fs_root := Dir {[ "files" := Dir ∅ ]}; fs_cwd := [] |})
    as (H1 & H2 & _); try (vm_compute; reflexivity).
  split; [exact H1|]. split; [reflexivity | exact H2].
Defined.

Lemma preview_below_file_witness :
  stored (fs uploaded_world) "aaaaaa.png" = inr (File ten_bytes)
  /\ os_Stat sample_platform (fs uploaded_world)
       (Join [baseDir; "aaaaaa.png" +:+ "/" +:+ "x"]) = inl ENOTDIR
  /\ serveImageHTML sample_platform (get "/f/aaaaaa.png/x") uploaded_world
     = http_NotFound.
Proof.
  assert (Hst : stored (fs uploaded_world) "aaaaaa.png" = inr (File ten_bytes))
    by (vm_compute; reflexivity).
  split; [exact Hst|].
  destruct (preview_below_file sample_platform (get "/f/aaaaaa.png/x")
              uploaded_world "aaaaaa.png" "x" ten_bytes) as (H1 & _ & H3);
    [by repeat split | by repeat split | exact Hst | reflexivity |].
  split; [exact H1 | exact H3].
Defined.

Lemma preview_traversal_witness :
  plain_name "main.go"
  /\ status (serveImageHTML sample_platform (get "/f/../main.go") source_world)
     = 200%Z
  /\ serveImageHTML sample_platform (get "/f/../main.go") source_world
     = preview_ok "../main.go" 3 0.
Proof.
  assert (Hp : plain_name "main.go") by (by repeat split).
  split; [exact Hp|].
  destruct (preview_traversal sample_platform (get "/f/../main.go") source_world
              "main.go" Hp eq_refl) as (_ & _ & Hs & Hpage).
  split; [exact Hs|]. exact (Hpage [x70; x61; x63] eq_refl).
Defined.

Lemma small_files_zero_witness :
  (0 <= 5242 < 2 ^ 53)%Z
  /\ fmt_2f_MB (float64_of_int 5242) = "0.00"
  /\ hundredths (float64_of_int 5243) <> 0%Z.
Proof.
  split; [lia|]. split.
  - apply (proj2 (small_files_zero 5242 ltac:(lia))). lia.
  - intros H. apply (proj1 (small_files_zero 5243 ltac:(lia))) in H. lia.
Defined.

(** ** The routes of main *)

Example dispatch_examples :
  dispatch "GET" "/" = RouteHome
  /\ dispatch "POST" "/upload" = RouteUpload
  /\ dispatch "GET" "/f/aaaaaa.png" = RoutePreview
  /\ dispatch "GET" "/files/aaaaaa.png" = RouteFiles
  /\ dispatch "GET" "/f" = RouteRedirect "/f/"
  /\ dispatch "GET" "/files" = RouteRedirect "/files/"
  /\ dispatch "GET" "/f/../main.go" = RouteRedirect "/main.go"
  /\ dispatch "GET" "/f//a.png" = RouteRedirect "/f/a.png"
  /\ dispatch "GET" "/f/sub/" = RoutePreview
  /\ dispatch "GET" "/upload/" = RouteHome
  /\ dispatch "GET" "/favicon.ico" = RouteHome
  /\ dispatch "GET" EmptyString = RouteRedirect "/"
  /\ dispatch "CONNECT" "/f/../main.go" = RoutePreview
  /\ dispatch "CONNECT" EmptyString = RouteNotFound.
Proof. repeat split; vm_compute; reflexivity. Qed.

Lemma in_patterns (p : string) :
  p ∈ patterns <-> p = "/" \/ p = "/upload" \/ p = "/f/" \/ p = "/files/".
Proof. unfold patterns. rewrite !elem_of_cons, elem_of_nil. tauto. Qed.

Lemma Clean_rooted (p : string) :
  HasPrefix p "/" = true ->
  Clean p = "/" +:+ strings_Join
                      (rev (fold_left (clean_step true) (split_slash p) [])) "/".
Proof. intros H. unfold Clean. by rewrite H. Qed.

(** A rooted path of plain names is canonical. *)
Lemma Clean_rooted_names (names : list string) :
  names <> [] ->
  Forall plain_name names ->
  Clean ("/" +:+ strings_Join names "/") = "/" +:+ strings_Join names "/".
Proof.
  intros Hne Hall. rewrite Clean_rooted by reflexivity.
  change ("/" +:+ strings_Join names "/")
    with (EmptyString +:+ String slash (strings_Join names "/")) at 1.
  rewrite split_slash_append, split_slash_Join by done.
  cbn [split_slash app fold_left].
  change (clean_step true [] EmptyString) with (@nil string).
  rewrite clean_fold_plain by done. by rewrite app_nil_r, rev_involutive.
Qed.

Lemma HasSuffix_slash_plain (a name : string) :
  plain_name name -> HasSuffix (a +:+ name) "/" = false.
Proof.
  intros (Hns & Hne & _). induction a as [|c a IH].
  - by apply HasSuffix_plain.
  - rewrite append_cons. cbn [HasSuffix]. rewrite IH, orb_false_r.
    apply String.eqb_neq. intros [= _ H]. by destruct a, name.
Qed.

Lemma cleanPath_rooted (p : string) : HasPrefix (cleanPath p) "/" = true.
Proof.
  unfold cleanPath. case_decide; [done|].
  set (p' := if HasPrefix p "/" then p else "/" +:+ p).
  assert (Hp' : HasPrefix p' "/" = true).
  { unfold p'. by destruct (HasPrefix p "/") eqn:Hpre. }
  rewrite (Clean_rooted p' Hp').
  destruct (_ && _); [|done]. by destruct (_ && _).
Qed.

(** A plain name below one of the two subtrees is dispatched to it. *)
Lemma cleanPath_under (dir name : string) :
  plain_name dir -> plain_name name ->
  cleanPath ("/" +:+ dir +:+ "/" +:+ name) = "/" +:+ dir +:+ "/" +:+ name.
Proof.
  intros Hd Hn. unfold cleanPath. rewrite decide_False by done.
  replace (HasPrefix ("/" +:+ dir +:+ "/" +:+ name) "/") with true by reflexivity.
  cbv zeta.
  assert (HS : HasSuffix ("/" +:+ dir +:+ "/" +:+ name) "/" = false).
  { rewrite <- !append_assoc. by apply HasSuffix_slash_plain. }
  rewrite HS. cbn [andb].
  change ("/" +:+ dir +:+ "/" +:+ name) with ("/" +:+ strings_Join [dir; name] "/").
  apply Clean_rooted_names; [done | auto using Forall_cons, Forall_nil].
Qed.

Lemma dispatch_files (method name : string) :
  method <> "CONNECT" ->
  plain_name name ->
  dispatch method ("/files/" +:+ name) = RouteFiles.
Proof.
  intros Hm Hn. unfold dispatch.
  destruct (String.eqb_spec method "CONNECT") as [|_]; [done|]. cbv zeta.
  pose proof (cleanPath_under "files" name plain_files Hn) as Hc.
  change ("/" +:+ "files" +:+ "/" +:+ name) with ("/files/" +:+ name) in Hc.
  rewrite Hc, String.eqb_refl. cbn [negb].
  assert (Hne : name <> EmptyString) by apply Hn.
  assert (Hnot : "/files/" +:+ name ∉ patterns).
  { rewrite in_patterns. intros [H|[H|[H|H]]]; try discriminate H.
    injection H as H. done. }
  assert (Hnot2 : ("/files/" +:+ name) +:+ "/" ∉ patterns).
  { rewrite in_patterns. intros [H|[H|[H|H]]]; try discriminate H.
    injection H as H. by destruct name. }
  unfold redirectToPathSlash, mux_match. rewrite !decide_False by done.
  by rewrite HasPrefix_append.
Qed.

Lemma dispatch_f (method name : string) :
  method <> "CONNECT" ->
  plain_name name ->
  dispatch method ("/f/" +:+ name) = RoutePreview.
Proof.
  intros Hm Hn. unfold dispatch.
  destruct (String.eqb_spec method "CONNECT") as [|_]; [done|]. cbv zeta.
  assert (Hf : plain_name "f") by (by repeat split).
  pose proof (cleanPath_under "f" name Hf Hn) as Hc.
  change ("/" +:+ "f" +:+ "/" +:+ name) with ("/f/" +:+ name) in Hc.
  rewrite Hc, String.eqb_refl. cbn [negb].
  assert (Hne : name <> EmptyString) by apply Hn.
  assert (Hnot : "/f/" +:+ name ∉ patterns).
  { rewrite in_patterns. intros [H|[H|[H|H]]]; try discriminate H.
    injection H as H. done. }
  assert (Hnot2 : ("/f/" +:+ name) +:+ "/" ∉ patterns).
  { rewrite in_patterns. intros [H|[H|[H|H]]]; try discriminate H.
    injection H as H. by destruct name. }
  unfold redirectToPathSlash, mux_match. rewrite !decide_False by done.
  replace (HasPrefix ("/f/" +:+ name) "/files/") with false by reflexivity.
  by rewrite HasPrefix_append.
Qed.

Lemma not_plain_with_slash (a t : string) : ~ plain_name (a +:+ "/" +:+ t).
Proof.
  intros (Hns & _). rewrite !all_bytes_append, !andb_true_iff in Hns.
  by destruct Hns as (_ & Hs & _).
Qed.

Lemma append_slash_inj (a b : string) : a +:+ "/" = b +:+ "/" -> a = b.
Proof.
  revert b. induction a as [|x a IH]; intros [|y b] H; try done.
  - injection H as _ H. by destruct b.
  - injection H as _ H. by destruct a.
  - injection H as -> H. f_equal. by apply IH.
Qed.

Section Server.

Variable P : platform.

(** X15. Upload and fetch through the server. After a POST to /upload that is
    answered 200, a GET for the path of rawUrl is routed to the raw file route
    and answered with the uploaded bytes, a HEAD for it with their length and
    no body, and a GET for the path of imageUrl is routed to the preview
    handler and answered with the page of that file; none of them changes the
    world. *)
Theorem serve_round_trip (r : request) (fault : option nat) (w : world) :
  Method r = "POST" ->
  URL_Path r = "/upload" ->
  status (FileUploadHandler P r fault w).1 = StatusOK ->
  exists Filename payload name,
    FormFile r = Some (Filename, payload)
    /\ (ServeHTTP P r fault w).1 = Handled (upload_ok name)
    /\ forall r' fault',
         (Method r' = "GET" -> URL_Path r' = "/files/" +:+ name ->
          ServeHTTP P r' fault' (ServeHTTP P r fault w).2
          = (Raw (ServeContent payload), (ServeHTTP P r fault w).2))
         /\ (Method r' = "HEAD" -> URL_Path r' = "/files/" +:+ name ->
             ServeHTTP P r' fault' (ServeHTTP P r fault w).2
             = (RawHead (HeadFile (length payload)), (ServeHTTP P r fault w).2))
         /\ (Method r' = "GET" -> URL_Path r' = "/f/" +:+ name ->
             ServeHTTP P r' fault' (ServeHTTP P r fault w).2
             = (Handled (preview_ok name (Z.of_nat (length payload))
                           (total_uploads (fs (ServeHTTP P r fault w).2))),
                (ServeHTTP P r fault w).2)).
Proof.
  intros HM HU Hok.
  destruct (upload_ok_run P r fault w Hok)
    as (Filename & payload & rnd & rest & name & HF & _ & _ & Hp & Hidx & _ & Hresp
        & _ & _ & Hes).
  assert (HS : ServeHTTP P r fault w
               = (Handled (FileUploadHandler P r fault w).1,
                  (FileUploadHandler P r fault w).2)).
  { unfold ServeHTTP. by rewrite HM, HU. }
  rewrite HS. cbn [fst snd]. rewrite Hresp.
  exists Filename, payload, name. split; [done|]. split; [done|].
  set (w' := (FileUploadHandler P r fault w).2) in *.
  assert (Hst : stored (fs w') name = inr (File payload)).
  { rewrite (stored_lookup _ _ _ Hp Hes). by rewrite lookup_insert_eq. }
  intros r' fault'. split; [|split]; intros HM' HU'; unfold ServeHTTP;
    rewrite HM', HU'.
  - rewrite (dispatch_files "GET" _ ltac:(discriminate) Hp).
    by rewrite (static_fetch _ _ _ Hp Hidx Hst).
  - rewrite (dispatch_files "HEAD" _ ltac:(discriminate) Hp).
    by rewrite (static_fetch _ _ _ Hp Hidx Hst).
  - rewrite (dispatch_f "GET" _ ltac:(discriminate) Hp).
    rewrite (serveImageHTML_found P r' w' (File payload))
      by (by rewrite HU', TrimPrefix_f).
    by rewrite HU', TrimPrefix_f.
Qed.

(** X16. The mux has no 404 of its own. For every method but CONNECT the mux
    finds a route or redirects; a path of one plain name other than upload, f
    and files gets the upload form with status 200, and the world stays. *)
Theorem mux_catch_all (r : request) (fault : option nat) (w : world) :
  Method r <> "CONNECT" ->
  dispatch (Method r) (URL_Path r) <> RouteNotFound
  /\ (ServeHTTP P r fault w).1 <> NoRoute
  /\ forall x,
       URL_Path r = "/" +:+ x -> plain_name x ->
       x <> "upload" -> x <> "f" -> x <> "files" ->
       ServeHTTP P r fault w = (Handled HomeHandler, w)
       /\ status HomeHandler = 200%Z.
Proof.
  intros HM.
  assert (Hroute : dispatch (Method r) (URL_Path r) <> RouteNotFound).
  { unfold dispatch.
    destruct (String.eqb_spec (Method r) "CONNECT") as [|_]; [done|]. cbv zeta.
    destruct (redirectToPathSlash _); [done|].
    destruct (String.eqb_spec (cleanPath (URL_Path r)) (URL_Path r)) as [Hfix|];
      [|done].
    cbn [negb]. unfold mux_match. case_decide as Hin.
    - apply in_patterns in Hin as [->|[->|[->| ->]]]; done.
    - destruct (HasPrefix _ "/files/"); [done|].
      destruct (HasPrefix _ "/f/"); [done|].
      by rewrite <- Hfix, cleanPath_rooted. }
  split; [done|]. split.
  - unfold ServeHTTP.
    destruct (dispatch (Method r) (URL_Path r)); try done.
    by destruct (String.eqb (Method r) "HEAD").
  - intros x HU Hp Hup Hf Hfiles. split; [|done].
    unfold ServeHTTP, dispatch. rewrite HU.
    destruct (String.eqb_spec (Method r) "CONNECT") as [|_]; [done|]. cbv zeta.
    assert (Hc : cleanPath ("/" +:+ x) = "/" +:+ x).
    { unfold cleanPath. rewrite decide_False by done.
      replace (HasPrefix ("/" +:+ x) "/") with true by reflexivity. cbv zeta.
      rewrite (HasSuffix_slash_plain "/" x Hp). cbn [andb].
      change ("/" +:+ x) with ("/" +:+ strings_Join [x] "/").
      apply Clean_rooted_names; [done | auto using Forall_cons, Forall_nil]. }
    rewrite Hc, String.eqb_refl. cbn [negb].
    assert (Hne : x <> EmptyString) by apply Hp.
    assert (Hnot : "/" +:+ x ∉ patterns).
    { rewrite in_patterns. intros [H|[H|[H|H]]]; injection H as H;
        rewrite append_nil_l in H; try done.
      - subst x. exact (not_plain_with_slash "f" EmptyString Hp).
      - subst x. exact (not_plain_with_slash "files" EmptyString Hp). }
    assert (Hnot2 : ("/" +:+ x) +:+ "/" ∉ patterns).
    { rewrite in_patterns. intros [H|[H|[H|H]]]; injection H as H;
        rewrite append_nil_l in H.
      - by destruct x.
      - destruct Hp as (Hns & _).
        apply (f_equal (all_bytes not_slash)) in H.
        rewrite all_bytes_append, Hns in H. discriminate H.
      - by apply Hf, append_slash_inj.
      - by apply Hfiles, append_slash_inj. }
    unfold redirectToPathSlash, mux_match. rewrite !decide_False by done.
    assert (H1 : HasPrefix ("/" +:+ x) "/files/" = false).
    { destruct (HasPrefix ("/" +:+ x) "/files/") eqn:H; [|done].
      apply HasPrefix_spec in H as [t Ht]. injection Ht as Ht.
      rewrite append_nil_l in Ht.
      subst x. destruct (not_plain_with_slash "files" t Hp). }
    assert (H2 : HasPrefix ("/" +:+ x) "/f/" = false).
    { destruct (HasPrefix ("/" +:+ x) "/f/") eqn:H; [|done].
      apply HasPrefix_spec in H as [t Ht]. injection Ht as Ht.
      rewrite append_nil_l in Ht.
      subst x. destruct (not_plain_with_slash "f" t Hp). }
    by rewrite H1, H2.
Qed.

End Server.

Lemma serve_round_trip_witness :
  Method (post "pic.PNG" ten_bytes) = "POST"
  /\ URL_Path (post "pic.PNG" ten_bytes) = "/upload"
  /\ ServeHTTP sample_platform (post "pic.PNG" ten_bytes) None fresh_world
     = (Handled (upload_ok "aaaaaa.png"), uploaded_world)
  /\ exists Filename payload name,
       FormFile (post "pic.PNG" ten_bytes) = Some (Filename, payload)
       /\ (ServeHTTP sample_platform (post "pic.PNG" ten_bytes) None fresh_world).1
          = Handled (upload_ok name)
       /\ forall r' fault',
            (Method r' = "GET" -> URL_Path r' = "/files/" +:+ name ->
             ServeHTTP sample_platform r' fault'
               (ServeHTTP sample_platform (post "pic.PNG" ten_bytes) None
                  fresh_world).2
             = (Raw (ServeContent payload),
                (ServeHTTP sample_platform (post "pic.PNG" ten_bytes) None
                   fresh_world).2))
            /\ (Method r' = "HEAD" -> URL_Path r' = "/files/" +:+ name ->
                ServeHTTP sample_platform r' fault'
                  (ServeHTTP sample_platform (post "pic.PNG" ten_bytes) None
                     fresh_world).2
                = (RawHead (HeadFile (length payload)),
                   (ServeHTTP sample_platform (post "pic.PNG" ten_bytes) None
                      fresh_world).2))
            /\ (Method r' = "GET" -> URL_Path r' = "/f/" +:+ name ->
                ServeHTTP sample_platform r' fault'
                  (ServeHTTP sample_platform (post "pic.PNG" ten_bytes) None
                     fresh_world).2
                = (Handled
                     (preview_ok name (Z.of_nat (length payload))
                        (total_uploads
                           (fs (ServeHTTP sample_platform
                                  (post "pic.PNG" ten_bytes) None fresh_world).2))),
                   (ServeHTTP sample_platform (post "pic.PNG" ten_bytes) None
                      fresh_world).2)).
Proof.
  split; [reflexivity|]. split; [reflexivity|].
  split; [vm_compute; reflexivity|].
  apply (serve_round_trip sample_platform (post "pic.PNG" ten_bytes) None
           fresh_world eq_refl eq_refl).
  vm_compute. reflexivity.
Defined.

Lemma mux_catch_all_witness :
  Method (get "/favicon.ico") <> "CONNECT"
  /\ ServeHTTP sample_platform (get "/favicon.ico") None uploaded_world
     = (Handled HomeHandler, uploaded_world)
  /\ status HomeHandler = 200%Z.
Proof.
  assert (HM : Method (get "/favicon.ico") <> "CONNECT") by discriminate.
  split; [exact HM|].
  destruct (mux_catch_all sample_platform (get "/favicon.ico") None uploaded_world HM)
    as (_ & _ & H).
  apply (H "favicon.ico"); [reflexivity | by repeat split | discriminate ..].
Defined.

(** ** A file in the way *)

Lemma mkdir_all_file (p : list string) (n : node) (d : list byte) :
  walk n p = inr (File d) -> exists e, mkdir_all n p = inl e.
Proof.
  revert n. induction p as [|c p IH]; intros [d0|es]; simpl; try done; eauto.
  destruct (es !! c) as [n0|]; [|done]. intros Hw. simpl.
  destruct (IH _ Hw) as [e ->]. eauto.
Qed.

Section UploadBlocked.

Variable P : platform.

(** X18. A file in the way of the storage directory. When a regular file
    stands where the storage directory should be, every POST that carries a
    file is answered 500 "Could not create directory", whatever its extension,
    and the world stays as it is. *)
Theorem upload_blocked (r : request) (fault : option nat) (w : world)
    (Filename : string) (payload d : list byte) :
  lookup_path (fs w) baseDir = inr (File d) ->
  Method r = MethodPost ->
  FormFile r = Some (Filename, payload) ->
  FileUploadHandler P r fault w
  = (http_Error "Could not create directory" StatusInternalServerError, w).
Proof.
  intros Hl HM HF. unfold FileUploadHandler. rewrite HM, HF.
  replace (String.eqb MethodPost MethodPost) with true by reflexivity.
  cbn [negb]. unfold lookup_path in Hl. rewrite decide_False in Hl by done.
  unfold os_MkdirAll. rewrite decide_False by done.
  by destruct (mkdir_all_file _ _ _ Hl) as [e ->].
Qed.

End UploadBlocked.

Lemma upload_blocked_witness :
  lookup_path (fs blocked_world) baseDir = inr (File [x01])
  /\ FileUploadHandler sample_platform (post "pic.png" ten_bytes) None blocked_world
     = (http_Error "Could not create directory" StatusInternalServerError,
        blocked_world).
Proof.
  split; [reflexivity|].
  by apply (upload_blocked sample_platform (post "pic.png" ten_bytes) None
              blocked_world "pic.png" ten_bytes [x01]).
Defined.

Section UploadDirectory.

Variable P : platform.

(** X20. The storage directory is made before the extension is looked at. A
    POST that carries a file leaves the storage directory in place whenever it
    could be made, also when the upload is then refused or fails. *)
Theorem upload_makes_directory (r : request) (fault : option nat) (w : world)
    (Filename : string) (payload : list byte) (fs1 : filesys) :
  Method r = MethodPost ->
  FormFile r = Some (Filename, payload) ->
  os_MkdirAll (fs w) baseDir = inr fs1 ->
  is_Some (storage_entries (fs (FileUploadHandler P r fault w).2))
  /\ (Contains allowed_literal (ToLower (unicode_lower P) (Ext Filename)) = false ->
      FileUploadHandler P r fault w
      = (http_Error "Invalid file type" StatusBadRequest,
         {| fs := fs1; entropy := entropy w |})
      /\ storage_entries fs1 = Some (default ∅ (storage_entries (fs w)))).
Proof.
  intros HM HF Hmk.
  destruct (MkdirAll_storage _ _ Hmk) as [_ Hes1].
  unfold FileUploadHandler. rewrite HM, HF.
  replace (String.eqb MethodPost MethodPost) with true by reflexivity.
  cbn [negb]. rewrite Hmk.
  destruct (Contains allowed_literal (ToLower (unicode_lower P) (Ext Filename)))
    eqn:Hgate; cbn [negb];
    [|split; [cbn [snd fs]; rewrite Hes1; eauto | done]].
  split; [|done].
  destruct (RandomString (entropy w) 6) as [[rnd rest]|] eqn:HR;
    [|cbn [snd fs]; rewrite Hes1; eauto].
  destruct (RandomString_Some _ _ _ _ HR) as (Hlen & Hal & _).
  pose proof (generated_name_plain _ _ Hlen Hal Hgate) as Hp.
  rewrite (Join_baseDir_plain _ Hp).
  destruct (os_Create fs1 _) as [e|fs2] eqn:Hcr;
    [cbn [snd fs]; rewrite Hes1; eauto|].
  destruct (store_generated _ _ _ _ Hp Hmk Hcr) as [_ Hwr].
  destruct (Hwr (match fault with Some k => take k payload | None => payload end))
    as (fs3 & Hw3 & _ & Hes3).
  unfold io_Copy. rewrite Hw3.
  destruct (bool_decide (is_Some fault)); cbn [snd fs]; rewrite Hes3; eauto.
Qed.

End UploadDirectory.

Lemma upload_makes_directory_witness :
  storage_entries (fs fresh_world) = None
  /\ os_MkdirAll (fs fresh_world) baseDir
     = inr {| fs_root := Dir {[ "files" := Dir ∅ ]}; fs_cwd := [] |}
  /\ is_Some (storage_entries
                (fs (FileUploadHandler sample_platform (post "notes.txt" ten_bytes)
                       None fresh_world).2))
  /\ (FileUploadHandler sample_platform (post "notes.txt" ten_bytes) None
        fresh_world).1 = http_Error "Invalid file type" StatusBadRequest.
Proof.
  assert (Hmk : os_MkdirAll (fs fresh_world) baseDir
                = inr {| fs_root := Dir {[ "files" := Dir ∅ ]}; fs_cwd := [] |})
    by reflexivity.
  destruct (upload_makes_directory sample_platform (post "notes.txt" ten_bytes)
              None fresh_world "notes.txt" ten_bytes _ eq_refl eq_refl Hmk)
    as [Hdir Hrej].
  split; [reflexivity|]. split; [exact Hmk|]. split; [exact Hdir|].
  destruct (Hrej eq_refl) as [-> _]. reflexivity.
Defined.

(** A copy that breaks off after four of ten bytes. *)
Example scenario_copy_fault :
  FileUploadHandler sample_platform (post "pic.png" ten_bytes) (Some 4%nat)
    fresh_world
  = (http_Error "Error copying file" StatusInternalServerError,
     {| fs := {| fs_root := Dir {[ "files" :=
                   Dir {[ "aaaaaa.png" := File [x89; x50; x4e; x47] ]} ]};
                 fs_cwd := [] |};
        entropy := [] |}).
Proof. vm_compute. reflexivity. Qed.
